(** * Razoom-Calculate: the pricing, packing and bitmap engine

    A shallow embedding of the numeric core of the application
    (materials.py, calculations.py, bmp_read.py and the rounding and price
    composition of main.py) together with the properties its specification
    states about it.

    Conventions of the embedding.
    - A Python [int] is a [Z].
    - A Python [float] is an exact rational [Qc]: binary64 rounding is not
      modelled, every float operation is carried out exactly.  On inputs whose
      intermediate values are representable (integers of moderate size,
      halves, quarters) the source computes exactly these values.
    - Exceptions are explicit: a function that can raise returns [res A].
    - A function that falls off its end returns Python's [None]. *)

From Stdlib Require Import ZArith QArith Qcanon Qabs Qcabs Qround Lia Lqa.
From Stdlib.Strings Require Import Byte.
From stdpp Require Import base numbers list strings gmap.

Local Open Scope Z_scope.

(** ** Python values, exceptions and numeric helpers *)
Module Py.

(** The exceptions the modelled code raises or catches. *)
Inductive exn : Set :=
  | ZeroDivisionError
  | KeyError
  | IndexError
  | ValueError
  | TypeError
  | OSError.

Inductive res (A : Type) : Type :=
  | Ok (a : A)
  | Raise (e : exn).
Arguments Ok {A} a.
Arguments Raise {A} e.

Definition bind {A B : Type} (m : res A) (k : A → res B) : res B :=
  match m with
  | Ok a => k a
  | Raise e => Raise e
  end.

(** A number is an [int] or a [float]; the two are kept apart because the
    source returns tabulated integers untouched on some paths and computed
    floats on others. *)
Inductive num : Set :=
  | NInt (z : Z)
  | NFloat (q : Qc).

Definition num_val (n : num) : Qc :=
  match n with
  | NInt z => Qc_of_Z z
  | NFloat q => q
  end.

(** Python's [==] on numbers compares values, whatever the two types. *)
Definition num_eqb (a b : num) : bool := bool_decide (num_val a = num_val b).

Definition Qcleb (x y : Qc) : bool := Qle_bool x y.
Definition Qcltb (x y : Qc) : bool := negb (Qle_bool y x).

(** [math.floor], and [int(x)] on a float, which truncates towards zero. *)
Definition Qcfloor (x : Qc) : Z := Qfloor x.
Definition Qctrunc (x : Qc) : Z :=
  if Qcleb 0 x then Qfloor x else Qceiling x.

(** The one-argument [round(x)]: to the nearest integer, a tie going to the
    even neighbour. *)
Definition py_round (x : Qc) : Z :=
  let f := Qcfloor x in
  let r := (x - Qc_of_Z f)%Qc in
  let half := (Qc_of_Z 1 / Qc_of_Z 2)%Qc in
  if Qcltb r half then f
  else if Qcltb half r then f + 1
  else if Z.even f then f else f + 1.

(** Float [a // b] and [a % b]; both raise on a zero divisor.  The quotient is
    a float holding an integer, the remainder takes the sign of [b]. *)
Definition floordiv (a b : Qc) : res Qc :=
  if bool_decide (b = 0%Qc) then Raise ZeroDivisionError
  else Ok (Qc_of_Z (Qcfloor (a / b)%Qc)).

Definition pymod (a b : Qc) : res Qc :=
  if bool_decide (b = 0%Qc) then Raise ZeroDivisionError
  else Ok (a - b * Qc_of_Z (Qcfloor (a / b)%Qc))%Qc.

(** True division [a / b]. *)
Definition truediv (a b : Qc) : res Qc :=
  if bool_decide (b = 0%Qc) then Raise ZeroDivisionError
  else Ok (a / b)%Qc.

(** An argument that need not be a number: a number, a [str] holding no
    numeral, or [None]. *)
Inductive pyobj : Set :=
  | ONum (n : num)
  | OText (s : string)
  | ONone.

(** [float(x)]: [ValueError] on text without a numeral, [TypeError] on
    [None]. *)
Definition py_float (x : pyobj) : res Qc :=
  match x with
  | ONum n => Ok (num_val n)
  | OText _ => Raise ValueError
  | ONone => Raise TypeError
  end.

(** [x <= y] and [x >= y] against a number: ordering a [str] or [None]
    with a number raises [TypeError]. *)
Definition py_le (x : pyobj) (y : Qc) : res bool :=
  match x with
  | ONum n => Ok (Qcleb (num_val n) y)
  | _ => Raise TypeError
  end.

Definition py_ge (x : pyobj) (y : Qc) : res bool :=
  match x with
  | ONum n => Ok (Qcleb y (num_val n))
  | _ => Raise TypeError
  end.

(** [l[i]] with Python's negative indices. *)
Definition py_index {A : Type} (l : list A) (i : Z) : res A :=
  let j := if i <? 0 then Z.of_nat (length l) + i else i in
  if j <? 0 then Raise IndexError
  else match l !! Z.to_nat j with
       | Some a => Ok a
       | None => Raise IndexError
       end.

End Py.
Export Py.

Notation "'let!' x ':=' m 'in' k" := (Py.bind m (λ x, k))
  (at level 10, x name, m at level 100, k at level 200,
   format "'[v' 'let!'  x  ':='  m  'in' '/' k ']'").

(** ** materials.py: [Interpolation] *)
Module Interpolation.

(** A key of the COSTS section reads [label, width, height].  The source
    splits it on [", "] at every use and reads the two size fields with
    [int] (with [float] in the first loop of [get_keys], which agrees on
    integers); the key is kept here in that split form.  Joining the fields
    again gives the key back, so a looked-up key is compared field by
    field. *)
Record row_key : Set := RowKey {
  key_label : string;
  key_width : Z;
  key_height : Z
}.

#[global] Instance row_key_eq_dec : EqDecision row_key.
Proof. solve_decision. Defined.

Definition key_area (k : row_key) : Z := key_width k * key_height k.

(** The COSTS section in file order: each key with its prices, the value
    [c1, ..., c7] already read by [int]. *)
Definition cost_grid : Type := list (row_key * list Z).

Definition well_formed (grid : cost_grid) : Prop :=
  NoDup (grid.*1) ∧ Forall (λ row, length row.2 = 7%nat) grid.

(** [temp_cost_config[key]]. *)
Fixpoint grid_lookup (grid : cost_grid) (key : row_key) : res (list Z) :=
  match grid with
  | [] => Raise KeyError
  | (k, prices) :: rest =>
      if bool_decide (k = key) then Ok prices else grid_lookup rest key
  end.

Definition numbering_list : list Z := [1; 5; 15; 50; 150; 500; 1000].

(** [l.index(item)]: the first position holding [item]. *)
Fixpoint list_index (item : Z) (l : list Z) : res Z :=
  match l with
  | [] => Raise ValueError
  | y :: rest =>
      if item =? y then Ok 0
      else let! i := list_index item rest in Ok (i + 1)
  end.

(** A reference point [[x, y]]: both call sites pass an integer [x]. *)
Definition point : Set := (Z * num)%type.

Definition point_eqb (a b : point) : bool :=
  (a.1 =? b.1) && num_eqb a.2 b.2.

(** [get_interpolation(point, lower_point, bigger_point)].  The handler for
    [ValueError] has nothing to catch on numbers; a zero denominator with
    two distinct points raises [ZeroDivisionError], which is not handled. *)
Definition get_interpolation (p : Z) (lower_point bigger_point : point)
    : res num :=
  if point_eqb lower_point bigger_point then Ok lower_point.2
  else
    let span := Qc_of_Z (Z.abs (bigger_point.1 - lower_point.1)) in
    let! lower_diff := truediv (Qc_of_Z (Z.abs (p - lower_point.1))) span in
    let! bigger_diff := truediv (Qc_of_Z (Z.abs (p - bigger_point.1))) span in
    Ok (NFloat (lower_diff * num_val bigger_point.2
                + bigger_diff * num_val lower_point.2)%Qc).

(** What [get_keys] returns: one key, or the list of two. *)
Inductive keys : Set :=
  | OneKey (k : row_key)
  | TwoKeys (lower_key bigger_key : row_key).

Definition lower_key0 : row_key := RowKey "" 1000000 1000000.
Definition bigger_key0 : row_key := RowKey "" 0 0.

(** First loop of [get_keys]: the rows of least and of greatest area. *)
Definition extreme_step (st : row_key * row_key) (key : row_key)
    : row_key * row_key :=
  let lower_key :=
    if key_area key <=? key_area st.1 then key else st.1 in
  let bigger_key :=
    if key_area st.2 <=? key_area key then key else st.2 in
  (lower_key, bigger_key).

Definition extreme_keys (grid : cost_grid) : row_key * row_key :=
  fold_left extreme_step (grid.*1) (lower_key0, bigger_key0).

(** Second loop of [get_keys], with its [break] on an exact match.  The
    result is [(key_get_point, lower_key, bigger_key)]. *)
Fixpoint bound_scan (rows : cost_grid) (area : Z)
    (lower_key bigger_key : row_key) : bool * row_key * row_key :=
  match rows with
  | [] => (false, lower_key, bigger_key)
  | (k, _) :: rest =>
      if key_area k =? area then (true, k, bigger_key)
      else
        let lower_key' :=
          if (key_area k <? area) && (key_area lower_key <=? key_area k)
          then k else lower_key in
        let bigger_key' :=
          if (area <=? key_area k) && (key_area k <=? key_area bigger_key)
          then k else bigger_key in
        bound_scan rest area lower_key' bigger_key'
  end.

Definition get_keys (grid : cost_grid) (width height : Z) : keys :=
  let '(lower_key, bigger_key) := extreme_keys grid in
  let area := width * height in
  let '(key_get_point, lower_key, bigger_key) :=
    bound_scan grid area lower_key bigger_key in
  if key_get_point then OneKey lower_key
  else if bool_decide (lower_key = bigger_key) then OneKey lower_key
  else TwoKeys lower_key bigger_key.

(** The loop of [get_cost] over [numbering_list] that picks the two rungs
    around [num]; the state is [(lower_index, bigger_index)], the second
    starting at Python's [-1]. *)
Definition quantity_step (n : Z) (st : Z * Z) (item : Z) : res (Z * Z) :=
  let! lo := py_index numbering_list st.1 in
  let! lower_index :=
    (if (lo <=? item) && (item <=? n)
     then list_index item numbering_list else Ok st.1) in
  let! hi := py_index numbering_list st.2 in
  let! bigger_index :=
    (if (item <=? hi) && (n <=? item)
     then list_index item numbering_list else Ok st.2) in
  Ok (lower_index, bigger_index).

Fixpoint quantity_loop (n : Z) (items : list Z) (st : Z * Z)
    : res (Z * Z) :=
  match items with
  | [] => Ok st
  | item :: rest =>
      let! st' := quantity_step n st item in
      quantity_loop n rest st'
  end.

Definition quantity_bounds (n : Z) : res (Z * Z) :=
  quantity_loop n numbering_list (0, -1).

(** One row priced at [num]: the interpolation between the two rungs. *)
Definition row_cost (cost_list : list Z) (n : Z) (idx : Z * Z) : res num :=
  let! x1 := py_index numbering_list idx.1 in
  let! y1 := py_index cost_list idx.1 in
  let! x2 := py_index numbering_list idx.2 in
  let! y2 := py_index cost_list idx.2 in
  get_interpolation n (x1, NInt y1) (x2, NInt y2).

(** [get_cost(height, width, num)].  The call [self.get_keys(height, width)]
    passes the two sizes in this order. *)
Definition get_cost (grid : cost_grid) (height width n : Z) : res num :=
  let lower_and_bigger_key := get_keys grid height width in
  let! idx := quantity_bounds n in
  match lower_and_bigger_key with
  | OneKey key =>
      let! cost_list := grid_lookup grid key in
      row_cost cost_list n idx
  | TwoKeys key0 key1 =>
      let! cost_lower_list := grid_lookup grid key0 in
      let! cost_bigger_list := grid_lookup grid key1 in
      let! lower_cost := row_cost cost_lower_list n idx in
      let! bigger_cost := row_cost cost_bigger_list n idx in
      let lower_area := key_area key0 in
      let bigger_area := key_area key1 in
      get_interpolation (width * height)
        (lower_area, lower_cost) (bigger_area, bigger_cost)
  end.

End Interpolation.

(** ** materials.py: [ContainerPacking] *)
Module ContainerPacking.

(** One line of material_data.ini as [Materials] reads it: sheet width,
    sheet height and sheet price, each through [float]. *)
Record material : Set := Material {
  gab_width : Qc;
  gab_height : Qc;
  mat_price : Qc
}.

(** The attributes of a [ContainerPacking] object. *)
Record packing : Set := Packing {
  figure_per_rows : Qc;
  figure_per_columns : Qc;
  total_1 : Z;
  total_2 : Z;
  w_big : Qc;
  h_big : Qc;
  width : Z;
  height : Z;
  price : Qc
}.

Definition nine_tenths : Qc := (Qc_of_Z 9 / Qc_of_Z 10)%Qc.

(** [ContainerPacking(width, height, mat_name)]: an unknown material is a
    [KeyError] out of the constructor. *)
Definition init (catalog : gmap string material) (width height : Z)
    (mat_name : string) : res packing :=
  match catalog !! mat_name with
  | None => Raise KeyError
  | Some m =>
      Ok {| figure_per_rows := 0%Qc; figure_per_columns := 0%Qc;
            total_1 := 0; total_2 := 0;
            w_big := (gab_width m * nine_tenths)%Qc;
            h_big := gab_height m;
            width := width; height := height;
            price := mat_price m |}
  end.

(** A method body: it reads and writes the object and may raise; what it
    wrote before raising stays written. *)
Definition M (A : Type) : Type := packing → res A * packing.

Definition ret {A : Type} (a : A) : M A := λ self, (Ok a, self).

Definition mbind {A B : Type} (m : M A) (k : A → M B) : M B :=
  λ self,
    match m self with
    | (Ok a, self') => k a self'
    | (Raise e, self') => (Raise e, self')
    end.

Definition lift {A : Type} (r : res A) : M A := λ self, (r, self).
Definition get {A : Type} (f : packing → A) : M A := λ self, (Ok (f self), self).
Definition modify (f : packing → packing) : M unit := λ self, (Ok tt, f self).

(** [try: body except ZeroDivisionError: handler]. *)
Definition try_zero_division {A : Type} (body handler : M A) : M A :=
  λ self,
    match body self with
    | (Raise ZeroDivisionError, self') => handler self'
    | other => other
    end.

Notation "'do!' x ':=' m 'in' k" := (mbind m (λ x, k))
  (at level 10, x name, m at level 100, k at level 200,
   format "'[v' 'do!'  x  ':='  m  'in' '/' k ']'").
Notation "m ';;;' k" := (mbind m (λ _, k))
  (at level 100, k at level 200, right associativity).

Definition set_figure_per_rows (v : Qc) (self : packing) : packing :=
  Packing v (figure_per_columns self) (total_1 self) (total_2 self)
    (w_big self) (h_big self) (width self) (height self) (price self).
Definition set_figure_per_columns (v : Qc) (self : packing) : packing :=
  Packing (figure_per_rows self) v (total_1 self) (total_2 self)
    (w_big self) (h_big self) (width self) (height self) (price self).
Definition set_total_1 (v : Z) (self : packing) : packing :=
  Packing (figure_per_rows self) (figure_per_columns self) v (total_2 self)
    (w_big self) (h_big self) (width self) (height self) (price self).
Definition set_total_2 (v : Z) (self : packing) : packing :=
  Packing (figure_per_rows self) (figure_per_columns self) (total_1 self) v
    (w_big self) (h_big self) (width self) (height self) (price self).

(** [figure_1]. *)
Definition figure_1 : M Z :=
  try_zero_division
    (do! w_big := get w_big in
     do! h_big := get h_big in
     do! width := get (λ self, Qc_of_Z (width self)) in
     do! height := get (λ self, Qc_of_Z (height self)) in
     do! rows := lift (floordiv w_big width) in
     modify (set_figure_per_rows rows) ;;;
     do! columns := lift (floordiv h_big height) in
     modify (set_figure_per_columns columns) ;;;
     modify (λ self,
       set_total_1 (total_1 self + Qctrunc (rows * columns)%Qc) self) ;;;
     if Qcleb height (w_big - rows * width)%Qc then
       do! x_2 := lift (floordiv (w_big - rows * width)%Qc height) in
       do! y_2 := lift (floordiv h_big width) in
       modify (λ self,
         set_total_1 (total_1 self + Qctrunc (x_2 * y_2)%Qc) self) ;;;
       get total_1
     else get total_1)
    (modify (set_total_1 0) ;;; get total_1).

(** [figure_2]: the item turned by a quarter turn. *)
Definition figure_2 : M Z :=
  try_zero_division
    (do! w_big := get w_big in
     do! h_big := get h_big in
     do! width := get (λ self, Qc_of_Z (width self)) in
     do! height := get (λ self, Qc_of_Z (height self)) in
     do! rows := lift (floordiv w_big height) in
     modify (set_figure_per_rows rows) ;;;
     do! columns := lift (floordiv h_big width) in
     modify (set_figure_per_columns columns) ;;;
     modify (λ self,
       set_total_2 (total_2 self + Qctrunc (rows * columns)%Qc) self) ;;;
     if Qcleb width (w_big - rows * height)%Qc then
       do! x_2 := lift (floordiv (h_big - rows * height)%Qc width) in
       do! y_2 := lift (floordiv h_big height) in
       modify (λ self,
         set_total_2 (total_2 self + Qctrunc (x_2 * y_2)%Qc) self) ;;;
       get total_2
     else get total_2)
    (modify (set_total_2 0) ;;; get total_2).

(** What the caller sees of a method called on a fresh object. *)
Definition call {A : Type} (m : M A) (obj : res packing) : res A :=
  let! self := obj in (m self).1.

End ContainerPacking.

(** ** calculations.py: [RatioArea] *)
Module RatioArea.

Record ratio_area : Set := RatioArea {
  area_min : Qc;
  area_max : Qc;
  ratio_max : Qc;
  ratio_min : Qc
}.

(** Arithmetic on an argument: a [str] or [None] operand is a
    [TypeError]. *)
Definition operand (x : pyobj) : res Qc :=
  match x with
  | ONum n => Ok (num_val n)
  | _ => Raise TypeError
  end.

(** [try: body except (ValueError, TypeError): handler]. *)
Definition try_value_type {A : Type} (body handler : res A) : res A :=
  match body with
  | Raise ValueError | Raise TypeError => handler
  | other => other
  end.

(** [get_linear_ratio]: the handler ends in [return 1.0]. *)
Definition get_linear_ratio (self : ratio_area) (area : pyobj) : res pyobj :=
  try_value_type
    (let! below := py_le area (area_min self) in
     if below then Ok (ONum (NFloat (ratio_min self)))
     else
       let! above := py_ge area (area_max self) in
       if above then Ok (ONum (NFloat (ratio_max self)))
       else
         let! a := operand area in
         let! q := truediv
           ((a - area_min self) * Qcabs (ratio_max self - ratio_min self))%Qc
           (area_max self - area_min self)%Qc in
         Ok (ONum (NFloat (q + ratio_min self)%Qc)))
    (Ok (ONum (NFloat (Qc_of_Z 1)))).

(** [get_polynomial_ratio]: the handler only logs, so the method falls off
    its end. *)
Definition get_polynomial_ratio (self : ratio_area) (area : pyobj)
    : res pyobj :=
  try_value_type
    (let! below := py_le area (area_min self) in
     if below then Ok (ONum (NFloat (ratio_min self)))
     else
       let! above := py_ge area (area_max self) in
       if above then Ok (ONum (NFloat (ratio_max self)))
       else
         let! a := operand area in
         let span := (area_max self - area_min self)%Qc in
         let! slope := truediv (ratio_max self - ratio_min self)%Qc
                               (span * span)%Qc in
         Ok (ONum (NFloat
           (slope * ((a - area_min self) * (a - area_min self))
            + ratio_min self)%Qc)))
    (Ok ONone).

End RatioArea.

(** ** calculations.py: [DeepEngraving] *)
Module DeepEngraving.

(** One [", "]-separated field of a line of deep_engraving.ini: a numeral
    with the value [float] reads from it, or other text. *)
Inductive field : Set :=
  | FNum (q : Qc)
  | FText (s : string).

Definition float_field (x : field) : res Qc :=
  match x with
  | FNum q => Ok q
  | FText _ => Raise ValueError
  end.

(** [[float(x) for x in fields]]. *)
Fixpoint float_fields (fields : list field) : res (list Qc) :=
  match fields with
  | [] => Ok []
  | x :: rest =>
      let! q := float_field x in
      let! qs := float_fields rest in
      Ok (q :: qs)
  end.

(** The two comments the method hands back. *)
Definition no_refocus : string := "Смена фокуса не требуется!".
Definition refocus : string := "Требуется смена фокуса!".

(** The returned list [[comment, result, power_list]]. *)
Record plan : Set := Plan {
  comment : string;
  result : num;
  power_list : list num
}.

(** [try: body except (KeyError, TypeError, ValueError): handler else:
    rest].  An exception raised by [rest] is not handled. *)
Definition try_key_type_value_else {A B : Type}
    (body : res A) (handler : res B) (rest : A → res B) : res B :=
  match body with
  | Ok a => rest a
  | Raise KeyError | Raise TypeError | Raise ValueError => handler
  | Raise e => Raise e
  end.

(** [DeepEngraving(material_name).depth_calculate(depth)] over the MAIN
    section of the configuration.  The handler logs and the method ends
    without a [return]: the caller gets [None]. *)
Definition depth_calculate (config : gmap string (list field))
    (material_name : string) (depth : pyobj) : res (option plan) :=
  try_key_type_value_else
    (let! fields :=
       match config !! material_name with
       | Some fields => Ok fields
       | None => Raise KeyError
       end in
     let! set_depth := float_fields fields in
     let! depth := py_float depth in
     Ok (set_depth, depth))
    (Ok None)
    (λ '(set_depth, depth),
       let! step := py_index set_depth 0 in
       if Qcleb depth step then
         let! ratio := truediv depth step in
         let! passes := py_index set_depth 1 in
         Ok (Some (Plan no_refocus (NInt (Qctrunc (ratio * passes)%Qc)) []))
       else
         let! quotient := floordiv depth step in
         let count_changes := Qctrunc quotient in
         let! remnant := pymod depth step in
         if bool_decide (remnant = 0%Qc) then
           let! passes := py_index set_depth 1 in
           let! ratio := truediv remnant step in
           let result := (Qc_of_Z count_changes * passes
                          + Qc_of_Z (Qctrunc (ratio * passes)))%Qc in
           let count_changes := count_changes - 1 in
           let ending := Qctrunc passes in
           Ok (Some (Plan refocus (NFloat result)
                       [NInt count_changes; NFloat passes; NFloat step;
                        NInt ending]))
         else
           let! passes := py_index set_depth 1 in
           let! ratio := truediv remnant step in
           let result := (Qc_of_Z count_changes * passes
                          + Qc_of_Z (Qctrunc (ratio * passes)))%Qc in
           let ending := Qctrunc (ratio * passes)%Qc in
           Ok (Some (Plan refocus (NFloat result)
                       [NInt count_changes; NFloat passes; NFloat step;
                        NInt ending]))).

End DeepEngraving.

(** ** main.py: [App.round_result] and the price of
    [PersonalCalculateTab.main_calculation] *)
Module App.

(** [round_result(cost)]. *)
Definition round_result (cost : Qc) : Z :=
  if Qcleb (Qc_of_Z 800) cost then
    py_round (cost / Qc_of_Z 50)%Qc * 50
  else if Qcleb (Qc_of_Z 250) cost && Qcltb cost (Qc_of_Z 800) then
    py_round (cost / Qc_of_Z 10)%Qc * 10
  else if Qcleb (Qc_of_Z 85) cost && Qcltb cost (Qc_of_Z 250) then
    py_round (cost / Qc_of_Z 5)%Qc * 5
  else Qctrunc cost.

(** The attributes [get_ratio_for_calculation] leaves on the tab. *)
Record ratios : Set := Ratios {
  additional_cost : Z;
  ratio_laser : Qc;
  ratio_rotation : Qc;
  ratio_different_layouts : Qc;
  ratio_timing : Qc;
  ratio_packing : Qc;
  ratio_thermal_graving : Qc;
  ratio_oversize : Qc;
  ratio_numbering : Qc;
  ratio_attention : Qc;
  ratio_hand_job : Qc;
  ratio_docking : Qc;
  ratio_difficult : Qc;
  ratio_depth : Qc;
  ratio_size : Qc;
  ratio_taxation_ao : Qc;
  ratio_taxation_ip : Qc;
  ratio_many_items : Qc;
  ratio_one_set : Qc;
  ratio_discount : Qc;
  cost_design : Qc
}.

Section Pricing.

(** Python's [n ** x] for an integer base and a float exponent. *)
Variable float_pow : Z → Qc → Qc.

(** The quantity, set, discount and aim terms of
    [get_ratio_for_calculation]; [many_items], [one_set] and [additional]
    are the MAIN settings of those names. *)
Definition many_items_ratio (spin_number : Z) (many_items : Qc) : Qc :=
  if spin_number =? 1 then Qc_of_Z 1
  else if (1 <? spin_number) && (spin_number <=? 5) then
    (Qc_of_Z 1 - Qc_of_Z spin_number / Qc_of_Z 10)%Qc
  else (Qc_of_Z 85 / Qc_of_Z 100 * float_pow spin_number (- many_items))%Qc.

Definition one_set_ratio (spin_group : Z) (one_set : Qc) : Qc :=
  if spin_group =? 1 then Qc_of_Z 1
  else float_pow spin_group (- one_set)%Qc.

Definition discount_ratio (spin_discount : Qc) : Qc :=
  (Qc_of_Z 1 - spin_discount / Qc_of_Z 100)%Qc.

Definition aim_cost (spin_aim additional : Z) : Z :=
  if 1 <? spin_aim then (spin_aim - 1) * additional else 0.

End Pricing.

(** [main_cost] of [main_calculation]. *)
Definition main_cost (cost : Z) (r : ratios) : Qc :=
  ((Qc_of_Z (additional_cost r) + Qc_of_Z cost * (
      ratio_laser r * ratio_rotation r *
      ratio_different_layouts r * ratio_timing r *
      ratio_packing r * ratio_thermal_graving r *
      ratio_oversize r * ratio_numbering r *
      ratio_attention r * ratio_hand_job r *
      ratio_docking r * ratio_difficult r *
      ratio_depth r * ratio_size r))
   * ratio_taxation_ao r * ratio_taxation_ip r *
   ratio_many_items r * ratio_one_set r *
   ratio_discount r)%Qc.

(** The attributes after [get_ratio_for_calculation] on an order with no
    option ticked, the solid-state laser, the first step of both
    gradations, no size surcharge, one aim, no design fee and no discount:
    [spin_number] pieces, [spin_group] of them in one set. *)
Definition plain_order (float_pow : Z → Qc → Qc) (many_items one_set : Qc)
    (additional spin_number spin_group : Z) : ratios :=
  {| additional_cost := aim_cost 1 additional;
     ratio_laser := Qc_of_Z 1;
     ratio_rotation := Qc_of_Z 1;
     ratio_different_layouts := Qc_of_Z 1;
     ratio_timing := Qc_of_Z 1;
     ratio_packing := Qc_of_Z 1;
     ratio_thermal_graving := Qc_of_Z 1;
     ratio_oversize := Qc_of_Z 1;
     ratio_numbering := Qc_of_Z 1;
     ratio_attention := Qc_of_Z 1;
     ratio_hand_job := Qc_of_Z 1;
     ratio_docking := Qc_of_Z 1;
     ratio_difficult := Qc_of_Z 1;
     ratio_depth := Qc_of_Z 1;
     ratio_size := Qc_of_Z 1;
     ratio_taxation_ao := Qc_of_Z 1;
     ratio_taxation_ip := Qc_of_Z 1;
     ratio_many_items := many_items_ratio float_pow spin_number many_items;
     ratio_one_set := one_set_ratio float_pow spin_group one_set;
     ratio_discount := discount_ratio (Qc_of_Z 0);
     cost_design := Qc_of_Z 0 |}.

(** What [main_calculation] shows: the price of one piece and [all_cost]. *)
Definition main_calculation (cost spin_number : Z) (r : ratios) : Z * Qc :=
  let unit := round_result (main_cost cost r) in
  (unit, (Qc_of_Z (unit * spin_number) + cost_design r)%Qc).

End App.

(** ** bmp_read.py: [MonochromeBMP] *)
Module MonochromeBMP.

(** The attributes of the object; the two resolutions exist only once the
    header has been read. *)
Record bmp : Set := Bmp {
  width : Z;
  height : Z;
  x_pixels_per_meter : option Z;
  y_pixels_per_meter : option Z;
  pixel_data : list (list Z)
}.

(** [f.read(n)] at offset [pos]: at most [n] bytes, fewer at the end of the
    file. *)
Definition read (contents : list byte) (pos n : nat) : list byte :=
  take n (drop pos contents).

(** [int.from_bytes(bs, byteorder='little')]. *)
Fixpoint from_bytes (bs : list byte) : Z :=
  match bs with
  | [] => 0
  | b :: rest => Z.of_N (Byte.to_N b) + 256 * from_bytes rest
  end.

(** [ord(byte)] on what [f.read(1)] gave: a [TypeError] on the empty
    bytes of an exhausted file. *)
Definition ord (bs : list byte) : res Z :=
  match bs with
  | [b] => Ok (Z.of_N (Byte.to_N b))
  | _ => Raise TypeError
  end.

(** The innermost loop: the bits of byte number [x] of a row that lie
    within [width], most significant first. *)
Definition unpack (byte_value x width : Z) : list Z :=
  flat_map
    (λ bit,
       if x * 8 + bit <? width then
         [if Z.land byte_value (Z.shiftl 1 (7 - bit)) =? 0 then 0 else 1]
       else [])
    (seqZ 0 8).

(** [for x in range(row_size)] from byte [pos] on; [xs] are the values of
    [x] still to come. *)
Fixpoint read_row (contents : list byte) (width : Z) (xs : list Z)
    (pos : nat) (row : list Z) : res (list Z * nat) :=
  match xs with
  | [] => Ok (row, pos)
  | x :: rest =>
      let! byte_value := ord (read contents pos 1) in
      read_row contents width rest (pos + 1) (row ++ unpack byte_value x width)
  end.

(** [for y in range(self.height)]: [n] rows still to read.  A row that
    fails leaves the rows appended so far in place. *)
Fixpoint read_rows (contents : list byte) (width : Z) (row_size padding : nat)
    (n : nat) (pos : nat) (pixel_data : list (list Z))
    : list (list Z) * option exn :=
  match n with
  | O => (pixel_data, None)
  | S n' =>
      match read_row contents width (seqZ 0 (Z.of_nat row_size)) pos [] with
      | Raise e => (pixel_data, Some e)
      | Ok (row, pos') =>
          read_rows contents width row_size padding n'
            (pos' + length (read contents pos' padding))
            (pixel_data ++ [row])
      end
  end.

(** [MonochromeBMP(file_path)]: the constructor and its [_read_bmp].  A
    file that cannot be opened is [None].  The result is the object and the
    exception the handler of [_read_bmp] caught, if any. *)
Definition _read_bmp (file : option (list byte)) : bmp * option exn :=
  match file with
  | None => (Bmp 0 0 None None [], Some OSError)
  | Some contents =>
      let width := from_bytes (read contents 18 4) in
      let height := from_bytes (read contents 22 4) in
      let x_ppm := from_bytes (read contents 38 4) in
      let y_ppm := from_bytes (read contents 42 4) in
      let pixel_array_offset := from_bytes (read contents 10 4) in
      let row_size := (width + 7) / 8 in
      let padding := (row_size + 3) / 4 * 4 - row_size in
      let '(pixel_data, raised) :=
        read_rows contents width (Z.to_nat row_size) (Z.to_nat padding)
          (Z.to_nat height) (Z.to_nat pixel_array_offset) [] in
      (Bmp width height (Some x_ppm) (Some y_ppm) pixel_data, raised)
  end.

(** A decoded pixel: 0 or 1. *)
Definition is_bit (p : Z) : Prop := p = 0 ∨ p = 1.

(** [row.count(v)]. *)
Definition count (v : Z) (row : list Z) : Z :=
  Z.of_nat (length (filter (λ p, p = v) row)).

(** [count_pixels]: [(white_pixels, black_pixels)]. *)
Definition count_pixels (self : bmp) : Z * Z :=
  fold_left
    (λ '(white_pixels, black_pixels) row,
       (white_pixels + count 1 row, black_pixels + count 0 row))
    (pixel_data self) (0, 0).

End MonochromeBMP.

(** ** The two-stage computation the specification describes

    The cost of a query that falls between two catalogued sizes, written
    after the specification of the cost grid interpolator (steps 1 to 3)
    rather than after the code. *)
Module CostGridInterpolator.
Import Interpolation.

Definition ladder : list Z := [1; 5; 15; 50; 150; 500; 1000].

(** Step 1, for a query between two catalogued areas: the row of greatest
    area below the query and the row of least area above it; among rows of
    equal area the one scanned last. *)
Definition better_lower (best : option (row_key * list Z))
    (row : row_key * list Z) : option (row_key * list Z) :=
  match best with
  | None => Some row
  | Some b => if key_area b.1 <=? key_area row.1 then Some row else Some b
  end.

Definition better_upper (best : option (row_key * list Z))
    (row : row_key * list Z) : option (row_key * list Z) :=
  match best with
  | None => Some row
  | Some b => if key_area row.1 <=? key_area b.1 then Some row else Some b
  end.

Definition lower_row (grid : cost_grid) (queryArea : Z)
    : option (row_key * list Z) :=
  fold_left better_lower
    (filter (λ row, key_area row.1 < queryArea) grid) None.

Definition upper_row (grid : cost_grid) (queryArea : Z)
    : option (row_key * list Z) :=
  fold_left better_upper
    (filter (λ row, queryArea < key_area row.1) grid) None.

(** Step 2: the index of the greatest rung not above the quantity and of
    the least rung not below it; a quantity off the ladder takes the end
    rung on that side for both. *)
Definition rungs : list (nat * Z) := imap pair ladder.

Definition lowerIndex (quantity : Z) : nat :=
  (default (0%nat, 1) (last (filter (λ r, r.2 ≤ quantity) rungs))).1.

Definition upperIndex (quantity : Z) : nat :=
  (default (6%nat, 1000) (head (filter (λ r, quantity ≤ r.2) rungs))).1.

Definition interpolateAtQuantity (prices : list Z) (quantity : Z) : res num :=
  let lo := lowerIndex quantity in
  let hi := upperIndex quantity in
  match ladder !! lo, prices !! lo, ladder !! hi, prices !! hi with
  | Some x1, Some y1, Some x2, Some y2 =>
      get_interpolation quantity (x1, NInt y1) (x2, NInt y2)
  | _, _, _, _ => Raise IndexError
  end.


(** The running bounds of the scan of [get_keys] set beside the rows kept
    by step 1: once a row has been kept, the running key is that of the
    kept row; until then it is no larger (no smaller) in area than any row
    still to come on its side of the query. *)
Definition lower_agrees (area : Z) (rows : cost_grid) (lower_key : row_key)
    (best : option (row_key * list Z)) : Prop :=
  match best with
  | Some b => lower_key = b.1
  | None => ∀ row, row ∈ rows → key_area row.1 < area →
                   key_area lower_key ≤ key_area row.1
  end.

Definition upper_agrees (area : Z) (rows : cost_grid) (bigger_key : row_key)
    (best : option (row_key * list Z)) : Prop :=
  match best with
  | Some b => bigger_key = b.1
  | None => ∀ row, row ∈ rows → area < key_area row.1 →
                   key_area row.1 ≤ key_area bigger_key
  end.

End CostGridInterpolator.

(** ** The rounding policy as the specification describes it *)
Module PricingComposer.

(** [r] is a multiple of [m] nearest to [cost]. *)
Definition nearest_multiple (m : Z) (cost : Qc) (r : Z) : Prop :=
  (∃ n, r = n * m) ∧
  ∀ n, (Qcabs (cost - Qc_of_Z r) ≤ Qcabs (cost - Qc_of_Z (n * m)))%Qc.

End PricingComposer.

(** ** One packing orientation as the specification describes it *)
Module RectPacker.

(** Rows and columns of the item as placed, then, when the strip of usable
    width left over takes the item turned by a quarter turn, a second band
    of turned items in that strip. *)
Definition orientation (usableWidth usableHeight itemWidth itemHeight : Qc)
    : Z :=
  let rows := Qcfloor (usableWidth / itemWidth)%Qc in
  let cols := Qcfloor (usableHeight / itemHeight)%Qc in
  let leftover := (usableWidth - Qc_of_Z rows * itemWidth)%Qc in
  rows * cols
  + if Qcleb itemHeight leftover
    then Qcfloor (leftover / itemHeight)%Qc
         * Qcfloor (usableHeight / itemWidth)%Qc
    else 0.

End RectPacker.

(** ** Sample data *)
Module Samples.
Import Interpolation.

(** A sheet of 600 by 400 at 1000. *)
Definition sheets : gmap string ContainerPacking.material :=
  {[ "plywood" :=
       ContainerPacking.Material (Qc_of_Z 600) (Qc_of_Z 400) (Qc_of_Z 1000) ]}.

(** Two size classes of one material. *)
Definition two_sizes : cost_grid :=
  [(RowKey "small" 50 30, [10; 20; 30; 40; 50; 60; 70]);
   (RowKey "big" 100 100, [100; 200; 300; 400; 500; 600; 700])].

(** Two size classes of the same area under different prices. *)
Definition same_area : cost_grid :=
  [(RowKey "wide" 50 30, [10; 20; 30; 40; 50; 60; 70]);
   (RowKey "tall" 30 50, [11; 21; 31; 41; 51; 61; 71])].

(** Two materials of deep_engraving.ini and three damaged lines. *)
Definition half : Qc := (Qc_of_Z 1 / Qc_of_Z 2)%Qc.

Definition depths : gmap string (list DeepEngraving.field) :=
  {[ "steel" := [DeepEngraving.FNum half; DeepEngraving.FNum (Qc_of_Z 10)];
     "brass" := [DeepEngraving.FNum (Qc_of_Z 2); DeepEngraving.FNum (Qc_of_Z 7)];
     "one field" := [DeepEngraving.FNum half];
     "no number" := [DeepEngraving.FNum half; DeepEngraving.FText "ten"] ]}.

(** The ratio curve of the solid-state laser: 70 by 70 to 200 by 200, up
    to a ratio of 2. *)
Definition solid_curve : RatioArea.ratio_area :=
  RatioArea.RatioArea (Qc_of_Z 4900) (Qc_of_Z 40000) (Qc_of_Z 2) (Qc_of_Z 1).

(** A bitmap of 10 by 2 pixels at 2835 pixels per metre whose pixel array
    starts at byte 46: two rows of two data bytes and two bytes of
    padding. *)
Definition two_rows : list byte :=
  [x42; x4d] ++ replicate 8 x00 ++ [x2e; x00; x00; x00] ++ replicate 4 x00
  ++ [x0a; x00; x00; x00] ++ [x02; x00; x00; x00] ++ replicate 12 x00
  ++ [x13; x0b; x00; x00] ++ [x13; x0b; x00; x00]
  ++ [xff; x40; x00; x00] ++ [x0f; x80; x00; x00].

End Samples.

(** ** What the first loop of [get_keys] holds *)
Module GridInvariants.
Import Interpolation.

(** The running key of least area set beside the row of least area found
    so far ([best], the last of equal areas): the running key is still the
    initial ["", 1_000_000, 1_000_000] while no row of area at most
    1_000_000 * 1_000_000 has come, and the key of [best] afterwards. *)
Definition least_agrees (lower_key : row_key)
    (best : option (row_key * list Z)) : Prop :=
  (lower_key = lower_key0
   ∧ match best with
     | None => True
     | Some b => key_area lower_key0 < key_area b.1
     end)
  ∨ ∃ b, best = Some b ∧ lower_key = b.1
         ∧ key_area b.1 ≤ key_area lower_key0.

(** The same for the running key of greatest area, initially
    ["", 0, 0]. *)
Definition greatest_agrees (bigger_key : row_key)
    (best : option (row_key * list Z)) : Prop :=
  (bigger_key = bigger_key0
   ∧ match best with
     | None => True
     | Some b => key_area b.1 < key_area bigger_key0
     end)
  ∨ ∃ b, best = Some b ∧ bigger_key = b.1
         ∧ key_area bigger_key0 ≤ key_area b.1.

End GridInvariants.

(** ** materials.py: [Materials] and the constructor of [ContainerPacking] *)
Module Materials.
Import DeepEngraving.

(** The MAIN section of material_data.ini in file order: the name of each
    material with its value split on [","], each field a numeral with the
    value [float] reads from it, or other text.  A usual line is
    [width, height, price, laser]. *)
Definition material_config : Type := list (string * list field).

(** [[float(x) for x in temp[0:3:1]]] of one line. *)
Definition leading_floats (fields : list field) : res (list Qc) :=
  float_fields (take 3 fields).

(** The loop of the three getters: [pick] is the index applied to the
    leading floats, [acc] the dictionary filled so far. *)
Fixpoint fill (pick : list Qc → res Qc) (items : material_config)
    (acc : gmap string Qc) : res (gmap string Qc) :=
  match items with
  | [] => Ok acc
  | (k, fields) :: rest =>
      let! floats := leading_floats fields in
      let! x := pick floats in
      fill pick rest (<[k := x]> acc)
  end.

(** [try: ... return d except Exception: log]: any exception leaves the
    method without a [return]. *)
Definition getter (pick : list Qc → res Qc) (config : material_config)
    : option (gmap string Qc) :=
  match fill pick config ∅ with
  | Ok d => Some d
  | Raise _ => None
  end.

Definition get_mat_price : material_config → option (gmap string Qc) :=
  getter (λ floats, py_index floats (-1)).

Definition get_gab_width : material_config → option (gmap string Qc) :=
  getter (λ floats, py_index floats 0).

Definition get_gab_height : material_config → option (gmap string Qc) :=
  getter (λ floats, py_index floats 1).

(** [d[mat_name]] on what a getter returned: [None] cannot be subscripted,
    a dictionary may lack the key. *)
Definition subscript (d : option (gmap string Qc)) (mat_name : string)
    : res Qc :=
  match d with
  | None => Raise TypeError
  | Some d =>
      match d !! mat_name with
      | Some x => Ok x
      | None => Raise KeyError
      end
  end.

(** [ContainerPacking(width, height, mat_name)] as the source builds it:
    three readings of the configuration, in this order. *)
Definition init (config : material_config) (width height : Z)
    (mat_name : string) : res ContainerPacking.packing :=
  let! gab_width := subscript (get_gab_width config) mat_name in
  let! gab_height := subscript (get_gab_height config) mat_name in
  let! price := subscript (get_mat_price config) mat_name in
  Ok {| ContainerPacking.figure_per_rows := 0%Qc;
        ContainerPacking.figure_per_columns := 0%Qc;
        ContainerPacking.total_1 := 0;
        ContainerPacking.total_2 := 0;
        ContainerPacking.w_big := (gab_width * ContainerPacking.nine_tenths)%Qc;
        ContainerPacking.h_big := gab_height;
        ContainerPacking.width := width;
        ContainerPacking.height := height;
        ContainerPacking.price := price |}.

(** A line that all three getters read: at least two fields, the first
    three of them numerals. *)
Definition readable (fields : list field) : Prop :=
  ∃ floats, leading_floats fields = Ok floats ∧ (2 ≤ length floats)%nat.

(** The material a readable line stands for: width, height, and as price
    the last of its leading floats. *)
Definition material_of (fields : list field)
    : option ContainerPacking.material :=
  match leading_floats fields with
  | Ok (w :: h :: rest) =>
      Some (ContainerPacking.Material w h (List.last rest h))
  | _ => None
  end.

(** The catalogue of a configuration, a later line replacing an earlier
    one of the same name. *)
Definition catalogue (config : material_config)
    : gmap string ContainerPacking.material :=
  fold_left
    (λ acc line,
       match material_of line.2 with
       | Some m => <[line.1 := m]> acc
       | None => acc
       end)
    config ∅.

End Materials.

(** ** main.py: [SheetMaterialsTab.material_calculation] *)
Module SheetMaterialsTab.
Import Interpolation.

(** The six results the method shows.  The handlers store [0.0] where the
    body stores an [int]; a total is kept by its value. *)
Record totals : Set := Totals {
  total_1 : Qc;
  total_2 : Qc;
  total_3 : Z;
  total_4 : Z;
  total_5 : Z;
  total_6 : Z
}.

(** [ceil(x)]. *)
Definition ceil (x : Qc) : Z := Qceiling x.

(** [try: body except ZeroDivisionError: 0.0] on a division. *)
Definition or_zero {A : Type} (zero : A) (r : res A) : res A :=
  match r with
  | Raise ZeroDivisionError => Ok zero
  | other => other
  end.

(** The price part: [try: ... except (ValueError, ZeroDivisionError)], both
    totals set to [0.0] by the handler. *)
Definition prices (grid : cost_grid)
    (number_of_products gab_width gab_height discount design_cost : Z)
    : res (Z * Z) :=
  match
    (let! cost := get_cost grid gab_height gab_width number_of_products in
     let total_5 :=
       if number_of_products =? 0 then 0
       else App.round_result
              (num_val cost
               * (Qc_of_Z (100 - discount) / Qc_of_Z 100))%Qc in
     Ok (total_5, total_5 * number_of_products + design_cost))
  with
  | Raise ValueError | Raise ZeroDivisionError => Ok (0, 0)
  | other => other
  end.

(** The computation of [material_calculation] from the converted fields on:
    [config] is the material file, [grid] the cost table of the chosen
    material, the numbers are the fields after [int].  What it raises is
    what leaves the method: the outer handler catches [ValueError] alone,
    which nothing after the conversions raises uncaught. *)
Definition material_calculation (config : Materials.material_config)
    (grid : cost_grid) (material_name : string)
    (number_of_products gab_width gab_height discount design_cost : Z)
    : res totals :=
  let! first :=
    ContainerPacking.call ContainerPacking.figure_1
      (Materials.init config gab_width gab_height material_name) in
  let! second :=
    ContainerPacking.call ContainerPacking.figure_2
      (Materials.init config gab_width gab_height material_name) in
  let total_3 := Z.max first second in
  let! total_1 :=
    or_zero 0%Qc
      (let! self :=
         Materials.init config gab_width gab_height material_name in
       truediv (ContainerPacking.price self) (Qc_of_Z total_3)) in
  let total_2 := (total_1 * Qc_of_Z number_of_products)%Qc in
  let! total_4 :=
    or_zero 0
      (let! q := truediv (Qc_of_Z number_of_products) (Qc_of_Z total_3) in
       Ok (ceil q)) in
  let! cost :=
    prices grid number_of_products gab_width gab_height discount
      design_cost in
  Ok {| total_1 := total_1; total_2 := total_2; total_3 := total_3;
        total_4 := total_4; total_5 := cost.1; total_6 := cost.2 |}.

End SheetMaterialsTab.

(** ** Sample files of the tabs *)
Module Files.

(** A material file of two lines, the second without a price. *)
Definition material_file : Materials.material_config :=
  [("plywood"%string,
    [DeepEngraving.FNum (Qc_of_Z 600); DeepEngraving.FNum (Qc_of_Z 400);
     DeepEngraving.FNum (Qc_of_Z 1000); DeepEngraving.FText " gas"]);
   ("film"%string,
    [DeepEngraving.FNum (Qc_of_Z 300); DeepEngraving.FNum (Qc_of_Z 200)])].

End Files.

(** ** main.py: the size ratio of [PersonalCalculateTab] *)
Module PersonalCalculateTab.
Import DeepEngraving RatioArea.

(** [try: body except ValueError: handler]. *)
Definition try_value {A : Type} (body handler : res A) : res A :=
  match body with
  | Raise ValueError => handler
  | other => other
  end.

(** The first statement of [get_ratio_for_calculation], which sets
    [self.ratio_size]: [size_list] is the [area] line of the settings split
    on [","], [type_of_laser] the radio button, the two fields the texts
    of the engraving height and width. *)
Definition ratio_size (size_list : list field) (type_of_laser : Z)
    (height_grav width_grav : field) : res pyobj :=
  try_value
    (if type_of_laser =? 2 then
       let! text := py_index size_list 1 in
       let! ratio_size_max := float_field text in
       let! h := float_field height_grav in
       let! w := float_field width_grav in
       get_polynomial_ratio
         (RatioArea (Qc_of_Z (150 * 100)) (Qc_of_Z (400 * 680))
            ratio_size_max (Qc_of_Z 1))
         (ONum (NFloat (h * w)%Qc))
     else
       let! text := py_index size_list 0 in
       let! ratio_size_max := float_field text in
       let! h := float_field height_grav in
       let! w := float_field width_grav in
       get_linear_ratio
         (RatioArea (Qc_of_Z (70 * 70)) (Qc_of_Z (200 * 200))
            ratio_size_max (Qc_of_Z 1))
         (ONum (NFloat (h * w)%Qc)))
    (Ok (ONum (NInt 1))).

End PersonalCalculateTab.

(** * Properties *)

(** ** Rational arithmetic *)

Lemma this_add (x y : Qc) : (this (x + y) == this x + this y)%Q.
Proof. simpl. apply Qred_correct. Qed.

Lemma this_mul (x y : Qc) : (this (x * y) == this x * this y)%Q.
Proof. simpl. apply Qred_correct. Qed.

Lemma this_opp (x : Qc) : (this (- x) == - this x)%Q.
Proof. simpl. apply Qred_correct. Qed.

Lemma this_sub (x y : Qc) : (this (x - y) == this x - this y)%Q.
Proof. unfold Qcminus. rewrite this_add, this_opp. reflexivity. Qed.

Lemma this_of_Z (z : Z) : this (Qc_of_Z z) = inject_Z z.
Proof. reflexivity. Qed.

(** Orders on [Qc] read as orders on [Q], for linear arithmetic. *)
Ltac qc2q :=
  unfold Qcle, Qclt in *;
  repeat match goal with
  | H : _ |- _ =>
      progress
        rewrite ?this_sub, ?this_add, ?this_mul, ?this_opp, ?this_of_Z in H
  end;
  repeat
    progress rewrite ?this_sub, ?this_add, ?this_mul, ?this_opp, ?this_of_Z;
  try change (this (Q2Qc 0)) with 0%Q in *;
  try change (this (Q2Qc 1)) with 1%Q in *;
  unfold inject_Z in *.

Section Rationals.
Local Open Scope Qc_scope.

Lemma Qcleb_le (x y : Qc) : Qcleb x y = true ↔ x ≤ y.
Proof. unfold Qcleb, Qcle. apply Qle_bool_iff. Qed.

Lemma Qcleb_gt (x y : Qc) : Qcleb x y = false ↔ y < x.
Proof.
  rewrite <-not_true_iff_false, Qcleb_le. split.
  - apply Qcnot_le_lt.
  - apply Qclt_not_le.
Qed.

Lemma Qcltb_lt (x y : Qc) : Qcltb x y = true ↔ x < y.
Proof. unfold Qcltb. rewrite negb_true_iff. apply Qcleb_gt. Qed.

Lemma Qcltb_ge (x y : Qc) : Qcltb x y = false ↔ y ≤ x.
Proof. unfold Qcltb. rewrite negb_false_iff. apply Qcleb_le. Qed.

Lemma Qcfloor_of_Z (z : Z) : Qcfloor (Qc_of_Z z) = z.
Proof. unfold Qcfloor. simpl. apply Qfloor_Z. Qed.

Lemma Qctrunc_of_Z (z : Z) : Qctrunc (Qc_of_Z z) = z.
Proof.
  unfold Qctrunc. destruct (Qcleb 0 (Qc_of_Z z)); simpl.
  - apply Qfloor_Z.
  - apply Qceiling_Z.
Qed.

(** The floor is the integer [n] with [n ≤ x < n + 1]. *)
Lemma Qcfloor_bounds (x : Qc) :
  Qc_of_Z (Qcfloor x) ≤ x ∧ x < Qc_of_Z (Qcfloor x + 1).
Proof.
  unfold Qcfloor, Qcle, Qclt. simpl. split.
  - apply Qfloor_le.
  - apply Qlt_floor.
Qed.

Lemma Qcfloor_unique (x : Qc) (n : Z) :
  Qc_of_Z n ≤ x → x < Qc_of_Z (n + 1) → Qcfloor x = n.
Proof.
  intros Hlo Hhi. destruct (Qcfloor_bounds x) as [Flo Fhi].
  assert (n < Qcfloor x + 1)%Z.
  { apply Z2Qc_inj_lt. eapply Qcle_lt_trans; eauto. }
  assert (Qcfloor x < n + 1)%Z.
  { apply Z2Qc_inj_lt. eapply Qcle_lt_trans; eauto. }
  lia.
Qed.

Lemma Qc_of_Z_nonzero (z : Z) : z ≠ 0%Z → Qc_of_Z z ≠ 0.
Proof. intros Hz Heq. apply Hz, Z2Qc_inj. by rewrite Z2Qc_inj_0. Qed.

Lemma Qcdiv_small (a b : Qc) : 0 ≤ a → a < b → 0 ≤ a / b ∧ a / b < 1.
Proof.
  intros Ha Hab.
  assert (Hb : 0 < b) by (eapply Qcle_lt_trans; eauto).
  assert (Hinv : 0 < / b) by (by apply Qcinv_pos).
  assert (Hb0 : b ≠ 0) by (intros ->; by apply (Qclt_not_eq 0 0)).
  unfold Qcdiv. split.
  - by apply Qcmult_nonneg_nonneg, Qclt_le_weak.
  - rewrite <-(Qcmult_inv_r b) by done.
    by apply Qcmult_lt_mono_pos_r.
Qed.

Lemma floordiv_small (a b : Qc) :
  0 ≤ a → a < b → floordiv a b = Ok (Qc_of_Z 0).
Proof.
  intros Ha Hab. unfold floordiv.
  assert (Hb0 : b ≠ 0).
  { intros ->. by apply (Qcle_not_lt 0 a). }
  rewrite bool_decide_eq_false_2 by done. do 2 f_equal.
  destruct (Qcdiv_small a b Ha Hab).
  apply Qcfloor_unique; by rewrite ?Z2Qc_inj_0, ?Z2Qc_inj_1.
Qed.

End Rationals.

(** ** The interpolation primitive *)
Section Primitive.
Import Interpolation.
Local Open Scope Qc_scope.

Lemma point_eqb_refl (pt : point) : point_eqb pt pt = true.
Proof.
  unfold point_eqb, num_eqb. rewrite Z.eqb_refl. simpl.
  by apply bool_decide_eq_true_2.
Qed.

Lemma get_interpolation_same (p : Z) (pt : point) :
  get_interpolation p pt pt = Ok pt.2.
Proof. unfold get_interpolation. by rewrite point_eqb_refl. Qed.

Lemma get_interpolation_distinct (p x1 x2 : Z) (y1 y2 : num) :
  x1 ≠ x2 →
  get_interpolation p (x1, y1) (x2, y2) =
    Ok (NFloat (Qc_of_Z (Z.abs (p - x1)) / Qc_of_Z (Z.abs (x2 - x1))
                * num_val y2
                + Qc_of_Z (Z.abs (p - x2)) / Qc_of_Z (Z.abs (x2 - x1))
                  * num_val y1)).
Proof.
  intros Hx. unfold get_interpolation, point_eqb, truediv. simpl.
  rewrite (proj2 (Z.eqb_neq x1 x2)) by done. simpl.
  rewrite bool_decide_eq_false_2; [done|].
  apply Qc_of_Z_nonzero. lia.
Qed.

(** C3.  The primitive returns [y1] when its two reference points are the
    same, raising nothing; and between two points of distinct integer
    abscissas, for an integer [p] with [x1 ≤ p ≤ x2], the value it computes,
    [d1 * y2 + d2 * y1], is the linear interpolation
    [y1 + (p - x1) * (y2 - y1) / (x2 - x1)]. *)
Theorem get_interpolation_linear :
  (∀ (p : Z) (pt : point), get_interpolation p pt pt = Ok pt.2) ∧
  (∀ (p x1 x2 : Z) (y1 y2 : num),
     x1 ≠ x2 → (x1 ≤ p ≤ x2)%Z →
     let d1 := Qc_of_Z (Z.abs (p - x1)) / Qc_of_Z (Z.abs (x2 - x1)) in
     let d2 := Qc_of_Z (Z.abs (p - x2)) / Qc_of_Z (Z.abs (x2 - x1)) in
     get_interpolation p (x1, y1) (x2, y2)
       = Ok (NFloat (d1 * num_val y2 + d2 * num_val y1))
     ∧ d1 * num_val y2 + d2 * num_val y1
       = num_val y1
         + Qc_of_Z (p - x1) * (num_val y2 - num_val y1) / Qc_of_Z (x2 - x1)).
Proof.
  split; [apply get_interpolation_same|].
  intros p x1 x2 y1 y2 Hne Hp d1 d2. split.
  - by apply get_interpolation_distinct.
  - subst d1 d2.
    rewrite (Z.abs_eq (p - x1)), (Z.abs_eq (x2 - x1)) by lia.
    rewrite (Z.abs_neq (p - x2)) by lia.
    rewrite Z2Qc_inj_opp, !Z2Qc_inj_sub.
    assert (Qc_of_Z x2 - Qc_of_Z x1 ≠ 0).
    { rewrite <-Z2Qc_inj_sub. apply Qc_of_Z_nonzero. lia. }
    field. done.
Qed.

Lemma get_interpolation_linear_witness :
  get_interpolation 7 (5%Z, NInt 20) (15%Z, NInt 30)
    = Ok (NFloat (Qc_of_Z (Z.abs (7 - 5)) / Qc_of_Z (Z.abs (15 - 5))
                  * Qc_of_Z 30
                  + Qc_of_Z (Z.abs (7 - 15)) / Qc_of_Z (Z.abs (15 - 5))
                    * Qc_of_Z 20))
  ∧ Qc_of_Z (Z.abs (7 - 5)) / Qc_of_Z (Z.abs (15 - 5)) * Qc_of_Z 30
    + Qc_of_Z (Z.abs (7 - 15)) / Qc_of_Z (Z.abs (15 - 5)) * Qc_of_Z 20
    = Qc_of_Z 20 + Qc_of_Z (7 - 5) * (Qc_of_Z 30 - Qc_of_Z 20)
                   / Qc_of_Z (15 - 5).
Proof.
  apply (proj2 get_interpolation_linear 7%Z 5%Z 15%Z (NInt 20) (NInt 30));
    lia.
Defined.

End Primitive.

(** ** The cost grid *)
Section Grid.
Import Interpolation CostGridInterpolator.

Lemma py_index_nat {A : Type} (l : list A) (i : nat) (a : A) :
  l !! i = Some a → py_index l (Z.of_nat i) = Ok a.
Proof.
  intros Hi. unfold py_index. cbv zeta.
  destruct (Z.ltb_spec (Z.of_nat i) 0); [lia|].
  destruct (Z.ltb_spec (Z.of_nat i) 0); [lia|].
  by rewrite Nat2Z.id, Hi.
Qed.

(** On a list of seven, index [-1] and index [6] read the same entry. *)
Lemma py_index_last7 {A : Type} (l : list A) :
  length l = 7%nat → py_index l (-1) = py_index l 6.
Proof.
  intros Hl. do 8 (destruct l as [|? l]; try discriminate Hl). reflexivity.
Qed.

(** The rung loop settles on the same rung twice when the quantity is a
    rung. *)
Lemma quantity_bounds_rung (i : nat) (n : Z) :
  numbering_list !! i = Some n →
  quantity_bounds n = Ok (Z.of_nat i, Z.of_nat i).
Proof.
  intros Hi.
  do 7 (destruct i as [|i]; [injection Hi as <-; reflexivity|]).
  discriminate Hi.
Qed.

Local Arguments Z.leb : simpl never.

Ltac split_leb :=
  repeat (simpl;
          match goal with
          | |- context [?a <=? ?b] => destruct (Z.leb_spec a b); try lia
          end).

(** For any quantity the rung loop finds the two rungs of step 2; above the
    ladder its second index stays at [-1]. *)
Lemma quantity_bounds_spec (n : Z) :
  quantity_bounds n =
    Ok (Z.of_nat (lowerIndex n),
        if 1000 <? n then -1 else Z.of_nat (upperIndex n)).
Proof.
  unfold quantity_bounds, numbering_list, lowerIndex, upperIndex, rungs, ladder.
  unfold quantity_loop, quantity_step, bind.
  split_leb; destruct (Z.ltb_spec 1000 n); try lia;
    repeat first
      [ rewrite filter_nil
      | rewrite filter_cons; simpl; case_decide; try lia ];
    reflexivity.
Qed.

Ltac split_filter :=
  repeat first
    [ rewrite filter_nil
    | rewrite filter_cons; simpl; case_decide; try lia ].

Lemma lowerIndex_lt (n : Z) : (lowerIndex n < 7)%nat.
Proof.
  unfold lowerIndex, rungs, ladder. simpl imap.
  split_filter; simpl; lia.
Qed.

Lemma upperIndex_lt (n : Z) : (upperIndex n < 7)%nat.
Proof.
  unfold upperIndex, rungs, ladder. simpl imap.
  split_filter; simpl; lia.
Qed.

Lemma upperIndex_above (n : Z) : 1000 < n → upperIndex n = 6%nat.
Proof.
  intros Hn. unfold upperIndex, rungs, ladder. simpl imap.
  split_filter; reflexivity.
Qed.

(** Pricing one row with the indices of the rung loop is step 2. *)
Lemma row_cost_spec (prices : list Z) (n : Z) (idx : Z * Z) :
  length prices = 7%nat →
  quantity_bounds n = Ok idx →
  row_cost prices n idx = interpolateAtQuantity prices n.
Proof.
  intros Hlen Hidx. rewrite quantity_bounds_spec in Hidx.
  injection Hidx as <-. unfold row_cost, interpolateAtQuantity. simpl.
  pose proof (lowerIndex_lt n) as Hlo. pose proof (upperIndex_lt n) as Hhi.
  destruct (lookup_lt_is_Some_2 ladder (lowerIndex n)) as [x1 Hx1]; [done|].
  destruct (lookup_lt_is_Some_2 prices (lowerIndex n)) as [y1 Hy1]; [lia|].
  destruct (lookup_lt_is_Some_2 ladder (upperIndex n)) as [x2 Hx2]; [done|].
  destruct (lookup_lt_is_Some_2 prices (upperIndex n)) as [y2 Hy2]; [lia|].
  rewrite Hx1, Hy1, Hx2, Hy2.
  rewrite (py_index_nat numbering_list _ x1), (py_index_nat prices _ y1)
    by done. simpl.
  assert (Hx : py_index numbering_list
                 (if 1000 <? n then -1 else Z.of_nat (upperIndex n)) = Ok x2).
  { destruct (Z.ltb_spec 1000 n) as [Hn|Hn].
    - rewrite py_index_last7 by done.
      apply (py_index_nat numbering_list 6).
      by rewrite <-(upperIndex_above n Hn).
    - by apply py_index_nat. }
  assert (Hy : py_index prices
                 (if 1000 <? n then -1 else Z.of_nat (upperIndex n)) = Ok y2).
  { destruct (Z.ltb_spec 1000 n) as [Hn|Hn].
    - rewrite py_index_last7 by done.
      apply (py_index_nat prices 6).
      by rewrite <-(upperIndex_above n Hn).
    - by apply py_index_nat. }
  by rewrite Hx, Hy.
Qed.

(** *** Key resolution *)

Lemma grid_lookup_first (pre post : cost_grid) (k : row_key)
    (prices : list Z) :
  Forall (λ row, row.1 ≠ k) pre →
  grid_lookup (pre ++ (k, prices) :: post) k = Ok prices.
Proof.
  induction 1 as [|[k' p'] pre Hk _ IH]; simpl.
  - by rewrite bool_decide_eq_true_2.
  - by rewrite bool_decide_eq_false_2.
Qed.

Lemma grid_lookup_NoDup (grid : cost_grid) (k : row_key) (prices : list Z) :
  NoDup (grid.*1) → (k, prices) ∈ grid → grid_lookup grid k = Ok prices.
Proof.
  intros Hnd Hin. apply list_elem_of_split in Hin as (pre & post & ->).
  apply grid_lookup_first.
  rewrite fmap_app, fmap_cons in Hnd. apply NoDup_app in Hnd as (_ & Hd & _).
  apply Forall_forall. intros [k' p'] Hk' Heq. simpl in Heq. subst k'.
  apply (Hd k); [by apply (list_elem_of_fmap_2 fst _ (k, p'))|].
  simpl. left.
Qed.

(** The scan stops at the first row of the queried area. *)
Lemma bound_scan_exact (pre post : cost_grid) (k : row_key)
    (prices : list Z) (area : Z) (lower_key bigger_key : row_key) :
  Forall (λ row, key_area row.1 ≠ area) pre →
  key_area k = area →
  ∃ bigger_key',
    bound_scan (pre ++ (k, prices) :: post) area lower_key bigger_key
      = (true, k, bigger_key').
Proof.
  intros Hpre Hk. revert lower_key bigger_key.
  induction Hpre as [|[k' p'] pre Hk' _ IH]; intros lower_key bigger_key.
  - simpl. rewrite (proj2 (Z.eqb_eq _ _)) by done. eauto.
  - simpl in *. rewrite (proj2 (Z.eqb_neq _ _)) by done. apply IH.
Qed.

(** The first loop leaves a key no larger, and a key no smaller, in area
    than any row. *)
Lemma extreme_keys_bounds (ks : list row_key) (st : row_key * row_key) :
  let st' := fold_left extreme_step ks st in
  (key_area st'.1 ≤ key_area st.1 ∧ key_area st.2 ≤ key_area st'.2) ∧
  ∀ k, k ∈ ks → key_area st'.1 ≤ key_area k ≤ key_area st'.2.
Proof.
  revert st. induction ks as [|k ks IH]; intros st; simpl.
  - split; [lia|]. intros k Hk. by apply elem_of_nil in Hk.
  - destruct (IH (extreme_step st k)) as [[Hlo Hhi] Hall].
    assert (key_area (extreme_step st k).1 ≤ key_area st.1
            ∧ key_area (extreme_step st k).1 ≤ key_area k
            ∧ key_area st.2 ≤ key_area (extreme_step st k).2
            ∧ key_area k ≤ key_area (extreme_step st k).2) as (?&?&?&?).
    { unfold extreme_step. simpl.
      destruct (Z.leb_spec (key_area k) (key_area st.1));
        destruct (Z.leb_spec (key_area st.2) (key_area k)); lia. }
    split; [lia|]. intros k' [->|Hk']%elem_of_cons; [lia|by apply Hall].
Qed.

Lemma bound_scan_spec (rows : cost_grid) (area : Z)
    (lower_key bigger_key : row_key) (lo hi : option (row_key * list Z)) :
  Forall (λ row, key_area row.1 ≠ area) rows →
  lower_agrees area rows lower_key lo →
  upper_agrees area rows bigger_key hi →
  ∃ lower_key' bigger_key',
    bound_scan rows area lower_key bigger_key
      = (false, lower_key', bigger_key')
    ∧ lower_agrees area [] lower_key'
        (fold_left better_lower
           (filter (λ row, key_area row.1 < area) rows) lo)
    ∧ upper_agrees area [] bigger_key'
        (fold_left better_upper
           (filter (λ row, area < key_area row.1) rows) hi).
Proof.
  intros Hne. revert lower_key bigger_key lo hi.
  induction Hne as [|[k p] rows Hk _ IH]; intros lower_key bigger_key lo hi Hlo Hhi.
  - simpl. exists lower_key, bigger_key. split; [done|]. split.
    + destruct lo; simpl in *; [done|]. intros row Hrow.
      by apply elem_of_nil in Hrow.
    + destruct hi; simpl in *; [done|]. intros row Hrow.
      by apply elem_of_nil in Hrow.
  - simpl in Hk. simpl bound_scan.
    rewrite (proj2 (Z.eqb_neq _ _)) by done.
    setoid_rewrite filter_cons. simpl.
    destruct (decide (key_area k < area)) as [Hlt|Hnlt];
      destruct (decide (area < key_area k)) as [Hgt|Hngt]; try lia.
    + (* the row lies below the query *)
      rewrite (proj2 (Z.ltb_lt _ _)) by done.
      rewrite (proj2 (Z.leb_gt area _)) by done. simpl.
      apply IH.
      * destruct lo as [b|]; simpl in *.
        -- subst lower_key.
           destruct (Z.leb_spec (key_area b.1) (key_area k)); done.
        -- rewrite (proj2 (Z.leb_le _ _)); [done|].
           apply (Hlo (k, p)); [left|done].
      * destruct hi as [b|]; simpl in *; [done|].
        intros row Hrow. apply Hhi. by right.
    + (* the row lies above the query *)
      rewrite (proj2 (Z.ltb_ge _ _)) by lia.
      rewrite (proj2 (Z.leb_le area _)) by lia. simpl.
      apply IH.
      * destruct lo as [b|]; simpl in *; [done|].
        intros row Hrow. apply Hlo. by right.
      * destruct hi as [b|]; simpl in *.
        -- subst bigger_key.
           destruct (Z.leb_spec (key_area k) (key_area b.1)); done.
        -- rewrite (proj2 (Z.leb_le _ _)); [done|].
           apply (Hhi (k, p)); [left|simpl; lia].
Qed.

(** The row step 1 keeps is of the greatest area among those it is chosen
    from, and is one of them. *)
Lemma better_lower_fold (l : cost_grid) (b : row_key * list Z) :
  ∃ r, fold_left better_lower l (Some b) = Some r
       ∧ (r = b ∨ r ∈ l)
       ∧ key_area b.1 ≤ key_area r.1
       ∧ ∀ r', r' ∈ l → key_area r'.1 ≤ key_area r.1.
Proof.
  revert b. induction l as [|x l IH]; intros b; simpl.
  - exists b. split_and!; [done|by left|lia|].
    intros r' Hr'. by apply elem_of_nil in Hr'.
  - destruct (Z.leb_spec (key_area b.1) (key_area x.1)) as [Hle|Hgt].
    + destruct (IH x) as (r & Hr & Hin & Hx & Hall). exists r.
      split_and!; [done| |lia|].
      * right. destruct Hin as [->|Hin]; [left|by right].
      * intros r' [->|Hr']%elem_of_cons; [done|by apply Hall].
    + destruct (IH b) as (r & Hr & Hin & Hb & Hall). exists r.
      split_and!; [done| |done|].
      * destruct Hin as [->|Hin]; [by left|right; by right].
      * intros r' [->|Hr']%elem_of_cons; [lia|by apply Hall].
Qed.

Lemma better_upper_fold (l : cost_grid) (b : row_key * list Z) :
  ∃ r, fold_left better_upper l (Some b) = Some r
       ∧ (r = b ∨ r ∈ l)
       ∧ key_area r.1 ≤ key_area b.1
       ∧ ∀ r', r' ∈ l → key_area r.1 ≤ key_area r'.1.
Proof.
  revert b. induction l as [|x l IH]; intros b; simpl.
  - exists b. split_and!; [done|by left|lia|].
    intros r' Hr'. by apply elem_of_nil in Hr'.
  - destruct (Z.leb_spec (key_area x.1) (key_area b.1)) as [Hle|Hgt].
    + destruct (IH x) as (r & Hr & Hin & Hx & Hall). exists r.
      split_and!; [done| |lia|].
      * right. destruct Hin as [->|Hin]; [left|by right].
      * intros r' [->|Hr']%elem_of_cons; [done|by apply Hall].
    + destruct (IH b) as (r & Hr & Hin & Hb & Hall). exists r.
      split_and!; [done| |done|].
      * destruct Hin as [->|Hin]; [by left|right; by right].
      * intros r' [->|Hr']%elem_of_cons; [lia|by apply Hall].
Qed.

(** [lower_row] is a catalogued row of the greatest area below the query,
    as soon as some row lies below it. *)
Lemma lower_row_greatest (grid : cost_grid) (queryArea : Z) :
  (∃ row, row ∈ grid ∧ key_area row.1 < queryArea) →
  ∃ r, lower_row grid queryArea = Some r
       ∧ r ∈ grid ∧ key_area r.1 < queryArea
       ∧ ∀ r', r' ∈ grid → key_area r'.1 < queryArea →
               key_area r'.1 ≤ key_area r.1.
Proof.
  intros (row & Hin & Hlt). unfold lower_row.
  assert (Hf : row ∈ filter (λ row, key_area row.1 < queryArea) grid)
    by (by apply list_elem_of_filter).
  destruct (filter _ grid) as [|x l] eqn:Heq; [by apply elem_of_nil in Hf|].
  simpl. destruct (better_lower_fold l x) as (r & Hr & Hrin & _ & Hall).
  assert (Hrf : r ∈ x :: l).
  { destruct Hrin as [->|?]; [left|by right]. }
  rewrite <-Heq in Hrf. apply list_elem_of_filter in Hrf as [Hrlt Hrg].
  exists r. split_and!; try done.
  intros r' Hr' Hr'lt.
  assert (Hr'f : r' ∈ x :: l)
    by (rewrite <-Heq; by apply list_elem_of_filter).
  apply elem_of_cons in Hr'f as [->|Hr'l]; [|by apply Hall].
  destruct Hrin as [->|Hrl]; [lia|].
  destruct (better_lower_fold l x) as (r2 & Hr2 & _ & Hx & _).
  rewrite Hr in Hr2. by injection Hr2 as <-.
Qed.

Lemma upper_row_least (grid : cost_grid) (queryArea : Z) :
  (∃ row, row ∈ grid ∧ queryArea < key_area row.1) →
  ∃ r, upper_row grid queryArea = Some r
       ∧ r ∈ grid ∧ queryArea < key_area r.1
       ∧ ∀ r', r' ∈ grid → queryArea < key_area r'.1 →
               key_area r.1 ≤ key_area r'.1.
Proof.
  intros (row & Hin & Hlt). unfold upper_row.
  assert (Hf : row ∈ filter (λ row, queryArea < key_area row.1) grid)
    by (by apply list_elem_of_filter).
  destruct (filter _ grid) as [|x l] eqn:Heq; [by apply elem_of_nil in Hf|].
  simpl. destruct (better_upper_fold l x) as (r & Hr & Hrin & _ & Hall).
  assert (Hrf : r ∈ x :: l).
  { destruct Hrin as [->|?]; [left|by right]. }
  rewrite <-Heq in Hrf. apply list_elem_of_filter in Hrf as [Hrlt Hrg].
  exists r. split_and!; try done.
  intros r' Hr' Hr'lt.
  assert (Hr'f : r' ∈ x :: l)
    by (rewrite <-Heq; by apply list_elem_of_filter).
  apply elem_of_cons in Hr'f as [->|Hr'l]; [|by apply Hall].
  destruct Hrin as [->|Hrl]; [lia|].
  destruct (better_upper_fold l x) as (r2 & Hr2 & _ & Hx & _).
  rewrite Hr in Hr2. by injection Hr2 as <-.
Qed.

(** Between two catalogued areas [get_keys] returns the two rows of
    step 1. *)
Lemma get_keys_between (grid : cost_grid) (width height : Z) :
  (∃ row, row ∈ grid ∧ key_area row.1 < width * height) →
  (∃ row, row ∈ grid ∧ width * height < key_area row.1) →
  Forall (λ row, key_area row.1 ≠ width * height) grid →
  ∃ lo hi,
    lower_row grid (width * height) = Some lo
    ∧ upper_row grid (width * height) = Some hi
    ∧ lo ∈ grid ∧ hi ∈ grid
    ∧ get_keys grid width height = TwoKeys lo.1 hi.1.
Proof.
  intros Hbelow Habove Hne.
  destruct (lower_row_greatest grid _ Hbelow) as (lo & Hlo & Hloin & Hlolt & _).
  destruct (upper_row_least grid _ Habove) as (hi & Hhi & Hhiin & Hhigt & _).
  exists lo, hi. split_and!; try done.
  unfold get_keys.
  pose proof (extreme_keys_bounds (grid.*1) (lower_key0, bigger_key0)) as Hext.
  fold (extreme_keys grid) in Hext.
  destruct (extreme_keys grid) as [lower_key bigger_key]. simpl in Hext.
  destruct Hext as [_ Hext].
  destruct (bound_scan_spec grid (width * height) lower_key bigger_key
              None None Hne) as (lk & bk & Hscan & Hl & Hb).
  { intros row Hrow _. apply Hext. by apply list_elem_of_fmap_2. }
  { intros row Hrow _. apply Hext. by apply list_elem_of_fmap_2. }
  rewrite Hscan. fold (lower_row grid (width * height)) in Hl.
  fold (upper_row grid (width * height)) in Hb.
  rewrite Hlo in Hl. rewrite Hhi in Hb. simpl in Hl, Hb. subst lk bk.
  rewrite bool_decide_eq_false_2; [done|].
  intros Heq. rewrite Heq in Hlolt. lia.
Qed.

(** C1, as the code has it.  When the queried area [width * height] is the
    area of a catalogued row and the quantity is a rung of the ladder,
    [get_cost] returns, as the integer it is tabulated, the price at that
    rung of the first row in file order that has this area.  In particular
    a grid whose first row of area 1500 is [small, 50, 30] with prices
    10, 20, 30, 40, 50, 60, 70 gives 20 for height 30, width 50 and
    quantity 5. *)
Theorem get_cost_exact_match :
  (∀ (pre post : cost_grid) (k : row_key) (prices : list Z)
     (height width n : Z) (i : nat) (price : Z),
     Forall (λ row, key_area row.1 ≠ width * height) pre →
     key_area k = width * height →
     numbering_list !! i = Some n →
     prices !! i = Some price →
     get_cost (pre ++ (k, prices) :: post) height width n = Ok (NInt price))
  ∧ (∀ pre post : cost_grid,
       Forall (λ row, key_area row.1 ≠ 1500) pre →
       get_cost
         (pre ++ (RowKey "small" 50 30, [10; 20; 30; 40; 50; 60; 70]) :: post)
         30 50 5 = Ok (NInt 20)).
Proof.
  assert (Hgen : ∀ (pre post : cost_grid) (k : row_key) (prices : list Z)
     (height width n : Z) (i : nat) (price : Z),
     Forall (λ row, key_area row.1 ≠ width * height) pre →
     key_area k = width * height →
     numbering_list !! i = Some n →
     prices !! i = Some price →
     get_cost (pre ++ (k, prices) :: post) height width n = Ok (NInt price)).
  { intros pre post k prices height width n i price Hpre Hk Hn Hprice.
    unfold get_cost, get_keys.
    destruct (extreme_keys _) as [lower_key bigger_key].
    rewrite (Z.mul_comm height width).
    destruct (bound_scan_exact pre post k prices (width * height)
                lower_key bigger_key Hpre Hk) as [bk ->].
    rewrite (quantity_bounds_rung i n Hn). simpl.
    rewrite grid_lookup_first.
    - unfold row_cost. simpl.
      rewrite (py_index_nat numbering_list i n Hn).
      rewrite (py_index_nat prices i price Hprice). simpl.
      apply get_interpolation_same.
    - eapply Forall_impl; [exact Hpre|]. intros row Hrow Heq.
      apply Hrow. by rewrite Heq. }
  split; [exact Hgen|].
  intros pre post Hpre.
  by apply (Hgen pre post _ _ 30 50 5 1%nat 20).
Qed.

Lemma get_cost_exact_match_witness :
  get_cost Samples.two_sizes 30 50 5 = Ok (NInt 20).
Proof.
  apply (proj1 get_cost_exact_match []
           [(RowKey "big" 100 100, [100; 200; 300; 400; 500; 600; 700])]
           (RowKey "small" 50 30) [10; 20; 30; 40; 50; 60; 70]
           30 50 5 1%nat 20); [constructor|reflexivity..].
Defined.

(** C1 as it is worded fails on a grid holding two rows of one area: the
    scan stops at the first of them, so a query on that area never returns
    the prices of the second. *)
Lemma get_cost_exact_match_counterexample :
  ¬ (∀ (grid : cost_grid) (k : row_key) (prices : list Z)
       (height width n : Z) (i : nat) (price : Z),
       well_formed grid →
       (k, prices) ∈ grid →
       key_area k = width * height →
       numbering_list !! i = Some n →
       prices !! i = Some price →
       get_cost grid height width n = Ok (NInt price)).
Proof.
  intros Hclaim.
  assert (Htall : get_cost Samples.same_area 30 50 5 = Ok (NInt 21)).
  { apply (Hclaim Samples.same_area (RowKey "tall" 30 50)
             [11; 21; 31; 41; 51; 61; 71] 30 50 5 1%nat 21);
      [|right; left|reflexivity..].
    split.
    - apply NoDup_cons. split; [|apply NoDup_singleton].
      intros Hin%list_elem_of_singleton. discriminate Hin.
    - repeat constructor. }
  assert (Hwide : get_cost Samples.same_area 30 50 5 = Ok (NInt 20))
    by reflexivity.
  rewrite Hwide in Htall. discriminate Htall.
Qed.



End Grid.

(** ** Packing *)
Section Packing.
Import ContainerPacking.
Local Open Scope Qc_scope.

Ltac run_method :=
  cbv beta iota zeta delta
    [call bind init figure_1 figure_2 try_zero_division mbind get lift modify
     ret set_figure_per_rows set_figure_per_columns set_total_1 set_total_2
     figure_per_rows figure_per_columns total_1 total_2 w_big h_big width
     height price fst snd floordiv].

(** What [figure_1] computes on an item of non-zero sizes: the grid of
    rows and columns, and a band of turned items in the strip of width
    left over. *)
Lemma figure_1_run (self : packing) :
  width self ≠ 0%Z → height self ≠ 0%Z →
  let w := Qc_of_Z (width self) in
  let h := Qc_of_Z (height self) in
  let rows := Qc_of_Z (Qcfloor (w_big self / w)) in
  let columns := Qc_of_Z (Qcfloor (h_big self / h)) in
  let leftover := w_big self - rows * w in
  (figure_1 self).1 =
    Ok (total_1 self + Qctrunc (rows * columns)
        + if Qcleb h leftover
          then Qctrunc (Qc_of_Z (Qcfloor (leftover / h))
                        * Qc_of_Z (Qcfloor (h_big self / w)))
          else 0)%Z.
Proof.
  intros Hw Hh w h rows columns leftover. subst w h rows columns leftover.
  destruct self as [fr fc t1 t2 wb hb wd ht pr]. simpl in Hw, Hh.
  run_method.
  rewrite !(bool_decide_eq_false_2 (Qc_of_Z wd = 0))
    by (by apply Qc_of_Z_nonzero).
  rewrite !(bool_decide_eq_false_2 (Qc_of_Z ht = 0))
    by (by apply Qc_of_Z_nonzero).
  destruct (Qcleb _ _); [reflexivity|].
  f_equal. lia.
Qed.

Lemma figure_2_run (self : packing) :
  width self ≠ 0%Z → height self ≠ 0%Z →
  let w := Qc_of_Z (width self) in
  let h := Qc_of_Z (height self) in
  let rows := Qc_of_Z (Qcfloor (w_big self / h)) in
  let columns := Qc_of_Z (Qcfloor (h_big self / w)) in
  (figure_2 self).1 =
    Ok (total_2 self + Qctrunc (rows * columns)
        + if Qcleb w (w_big self - rows * h)
          then Qctrunc (Qc_of_Z (Qcfloor ((h_big self - rows * h) / w))
                        * Qc_of_Z (Qcfloor (h_big self / h)))
          else 0)%Z.
Proof.
  intros Hw Hh w h rows columns. subst w h rows columns.
  destruct self as [fr fc t1 t2 wb hb wd ht pr]. simpl in Hw, Hh.
  run_method.
  rewrite !(bool_decide_eq_false_2 (Qc_of_Z wd = 0))
    by (by apply Qc_of_Z_nonzero).
  rewrite !(bool_decide_eq_false_2 (Qc_of_Z ht = 0))
    by (by apply Qc_of_Z_nonzero).
  destruct (Qcleb _ _); [reflexivity|].
  f_equal. lia.
Qed.

(** A zero size is the division by zero the handler turns into 0. *)
Lemma figure_1_zero_size (self : packing) :
  width self = 0%Z ∨ height self = 0%Z → (figure_1 self).1 = Ok 0%Z.
Proof.
  destruct self as [fr fc t1 t2 wb hb wd ht pr]. simpl.
  destruct (decide (wd = 0%Z)) as [->|Hw].
  - intros _. run_method.
    by rewrite bool_decide_eq_true_2 by apply Z2Qc_inj_0.
  - intros [?| ->]; [done|]. run_method.
    rewrite bool_decide_eq_false_2 by (by apply Qc_of_Z_nonzero).
    by rewrite bool_decide_eq_true_2 by apply Z2Qc_inj_0.
Qed.

Lemma figure_2_zero_size (self : packing) :
  width self = 0%Z ∨ height self = 0%Z → (figure_2 self).1 = Ok 0%Z.
Proof.
  destruct self as [fr fc t1 t2 wb hb wd ht pr]. simpl.
  destruct (decide (ht = 0%Z)) as [->|Hh].
  - intros _. run_method.
    by rewrite bool_decide_eq_true_2 by apply Z2Qc_inj_0.
  - intros [->|?]; [|done]. run_method.
    rewrite bool_decide_eq_false_2 by (by apply Qc_of_Z_nonzero).
    by rewrite bool_decide_eq_true_2 by apply Z2Qc_inj_0.
Qed.

Lemma Qctrunc_mul_of_Z (a b : Z) :
  Qctrunc (Qc_of_Z a * Qc_of_Z b) = (a * b)%Z.
Proof. by rewrite <-Z2Qc_inj_mul, Qctrunc_of_Z. Qed.

(** The first orientation is the one the specification describes. *)
Lemma figure_1_orientation (self : packing) :
  width self ≠ 0%Z → height self ≠ 0%Z →
  (figure_1 self).1 =
    Ok (total_1 self
        + RectPacker.orientation (w_big self) (h_big self)
            (Qc_of_Z (width self)) (Qc_of_Z (height self)))%Z.
Proof.
  intros Hw Hh. rewrite figure_1_run by done. cbv zeta.
  unfold RectPacker.orientation. rewrite !Qctrunc_mul_of_Z.
  f_equal. destruct (Qcleb _ _); lia.
Qed.

Lemma Qcfloor_small (a b : Qc) : 0 ≤ a → a < b → Qcfloor (a / b) = 0%Z.
Proof.
  intros Ha Hab. destruct (Qcdiv_small a b Ha Hab).
  apply Qcfloor_unique; by rewrite ?Z2Qc_inj_0, ?Z2Qc_inj_1.
Qed.

Lemma nine_tenths_bounds (x : Qc) :
  0 ≤ x → 0 ≤ x * nine_tenths ∧ x * nine_tenths ≤ x.
Proof.
  intros Hx. split.
  - by apply Qcmult_nonneg_nonneg.
  - rewrite <-(Qcmult_1_r x) at 2. by apply Qcmult_le_mono_nonneg_l.
Qed.

(** C9.  An item of positive sizes that exceeds the sheet in both
    directions packs to 0 in both orientations, and both calls return: the
    band in the leftover strip adds nothing, and no division by zero
    arises.  Where one does arise, on an item with a zero size, the handler
    sets the total to 0 and the call returns 0 as well.  The sheet has
    non-negative sizes. *)
Theorem oversize_item_packs_nothing :
  (∀ (catalog : gmap string material) (mat_name : string) (m : material)
     (w h : Z),
     catalog !! mat_name = Some m →
     0 ≤ gab_width m → 0 ≤ gab_height m →
     (0 < w)%Z → (0 < h)%Z →
     gab_width m < Qc_of_Z w → gab_height m < Qc_of_Z h →
     call figure_1 (init catalog w h mat_name) = Ok 0%Z
     ∧ call figure_2 (init catalog w h mat_name) = Ok 0%Z)
  ∧ (∀ self : packing,
       width self = 0%Z ∨ height self = 0%Z →
       (figure_1 self).1 = Ok 0%Z ∧ (figure_2 self).1 = Ok 0%Z).
Proof.
  split; [|by auto using figure_1_zero_size, figure_2_zero_size].
  intros catalog mat_name m w h Hm HW HH Hw Hh HWw HHh.
  destruct (nine_tenths_bounds _ HW) as [Hwb0 HwbW].
  set (wb := gab_width m * nine_tenths) in *.
  assert (Hwbw : wb < Qc_of_Z w) by (eapply Qcle_lt_trans; eauto).
  unfold call, init. rewrite Hm. simpl bind. split.
  - rewrite figure_1_run by (simpl; lia). simpl.
    fold wb.
    rewrite (Qcfloor_small wb) by done.
    rewrite (Qcfloor_small (gab_height m)) by done.
    rewrite !Qctrunc_mul_of_Z, Z2Qc_inj_0, Qcmult_0_l.
    replace (wb - 0) with wb by ring.
    destruct (Qcleb (Qc_of_Z h) wb) eqn:Hfit; [|done].
    apply Qcleb_le in Hfit.
    rewrite (Qcfloor_small (gab_height m) (Qc_of_Z w)); [f_equal; lia|done|].
    eapply Qclt_trans; [exact HHh|]. eapply Qcle_lt_trans; eauto.
  - rewrite figure_2_run by (simpl; lia). simpl.
    fold wb.
    rewrite (Qcfloor_small (gab_height m) (Qc_of_Z h)) by done.
    rewrite !Qctrunc_mul_of_Z.
    assert (Hzero : (Qcfloor (wb / Qc_of_Z h)
                     * Qcfloor (gab_height m / Qc_of_Z w) = 0)%Z).
    { destruct (Qclt_le_dec wb (Qc_of_Z h)) as [Hlt|Hge].
      - rewrite (Qcfloor_small wb) by done. lia.
      - rewrite (Qcfloor_small (gab_height m) (Qc_of_Z w)); [lia|done|].
        eapply Qclt_trans; [exact HHh|]. eapply Qcle_lt_trans; eauto. }
    rewrite Hzero. destruct (Qcleb _ _); f_equal; lia.
Qed.

Lemma oversize_item_packs_nothing_witness :
  call figure_1 (init Samples.sheets 700 500 "plywood") = Ok 0%Z
  ∧ call figure_2 (init Samples.sheets 700 500 "plywood") = Ok 0%Z.
Proof.
  apply (proj1 oversize_item_packs_nothing Samples.sheets "plywood"
           (Material (Qc_of_Z 600) (Qc_of_Z 400) (Qc_of_Z 1000)) 700 500);
    first [reflexivity | lia | vm_compute; discriminate].
Defined.

(** C4 at work.  On the sheet of 600 by 400 and an item 30 wide and 100
    high, the first orientation counts what the specification describes,
    band included.  The second leaves a strip of 40 that takes one turned
    row of 4 items, 69 in all, but measures that strip from the sheet
    height, adds [-4 * 4] and returns 49. *)
Theorem figure_2_leftover_band :
  call figure_1 (init Samples.sheets 30 100 "plywood")
    = Ok (RectPacker.orientation (Qc_of_Z 540) (Qc_of_Z 400)
            (Qc_of_Z 30) (Qc_of_Z 100))
  ∧ RectPacker.orientation (Qc_of_Z 540) (Qc_of_Z 400)
      (Qc_of_Z 100) (Qc_of_Z 30) = 69%Z
  ∧ call figure_2 (init Samples.sheets 30 100 "plywood") = Ok 49%Z.
Proof. split_and!; reflexivity. Qed.

End Packing.

(** ** Ratio curves *)
Section Ratios.
Import RatioArea.

(** C7 at work.  An area that is text or [None] cannot be ordered against
    the lower bound; [get_linear_ratio] answers 1.0, while
    [get_polynomial_ratio], whose handler has no [return], answers
    [None]. *)
Theorem ratio_fallback_on_text (self : ratio_area) (s : string) :
  get_linear_ratio self (OText s) = Ok (ONum (NFloat (Qc_of_Z 1)))
  ∧ get_linear_ratio self ONone = Ok (ONum (NFloat (Qc_of_Z 1)))
  ∧ get_polynomial_ratio self (OText s) = Ok ONone
  ∧ get_polynomial_ratio self ONone = Ok ONone.
Proof. split_and!; reflexivity. Qed.

End Ratios.

(** ** Deep engraving *)
Section Depth.
Import DeepEngraving.
Local Open Scope Qc_scope.

(** An unknown material is swallowed: the method returns [None]. *)
Lemma depth_calculate_unknown (config : gmap string (list field))
    (material_name : string) (depth : pyobj) :
  config !! material_name = None →
  depth_calculate config material_name depth = Ok None.
Proof. intros Hm. unfold depth_calculate. by rewrite Hm. Qed.

Lemma float_fields_raise (fields : list field) (e : exn) :
  float_fields fields = Raise e → e = ValueError.
Proof.
  induction fields as [|[q|s] fields IH]; simpl; [done| |congruence].
  destruct (float_fields fields); simpl; [done|].
  intros [= <-]. by apply IH.
Qed.

(** So is a depth that [float] cannot read. *)
Lemma depth_calculate_bad_depth (config : gmap string (list field))
    (material_name : string) (depth : pyobj) :
  (depth = ONone ∨ ∃ s, depth = OText s) →
  depth_calculate config material_name depth = Ok None.
Proof.
  intros Hd. unfold depth_calculate.
  destruct (config !! material_name) as [fields|]; simpl; [|done].
  destruct (float_fields fields) as [qs|e] eqn:Hf; simpl.
  - destruct Hd as [->|[s ->]]; done.
  - by rewrite (float_fields_raise fields e Hf).
Qed.

(** C5 at work.  For a material absent from the mapping, for a line with a
    field that is no number and for a depth that is no number,
    [depth_calculate] raises nothing and returns [None]; only a line of a
    single field raises, an [IndexError] from the unprotected part. *)
Theorem depth_calculate_swallows :
  depth_calculate Samples.depths "granite" (ONum (NFloat (Qc_of_Z 1)))
    = Ok None
  ∧ depth_calculate Samples.depths "no number" (ONum (NFloat (Qc_of_Z 1)))
    = Ok None
  ∧ depth_calculate Samples.depths "steel" (OText "deep") = Ok None
  ∧ depth_calculate Samples.depths "one field" (ONum (NFloat (Qc_of_Z 1)))
    = Raise IndexError.
Proof. split_and!; reflexivity. Qed.

Lemma Qcpos_nonzero (x : Qc) : 0 < x → x ≠ 0.
Proof. intros Hx ->. by apply (Qclt_not_eq 0 0). Qed.



End Depth.

(** ** Rounding and the price of an order *)
Section Rounding.
Import App PricingComposer.
Local Open Scope Qc_scope.

(** [round] lands within one half of its argument. *)
Lemma py_round_close (x : Qc) :
  Qc_of_Z 2 * Qc_of_Z (py_round x) - Qc_of_Z 1 ≤ Qc_of_Z 2 * x
  ∧ Qc_of_Z 2 * x ≤ Qc_of_Z 2 * Qc_of_Z (py_round x) + Qc_of_Z 1.
Proof.
  unfold py_round. destruct (Qcfloor_bounds x) as [Hlo Hhi].
  rewrite Z2Qc_inj_add in Hhi.
  set (f := Qcfloor x) in *.
  set (half := Qc_of_Z 1 / Qc_of_Z 2).
  assert (Hhalf : Qc_of_Z 2 * half = Qc_of_Z 1) by (by apply Qc_is_canon).
  destruct (Qcltb (x - Qc_of_Z f) half) eqn:Hr.
  - apply Qcltb_lt in Hr.
    apply (Qcmult_lt_mono_pos_l _ _ (Qc_of_Z 2)) in Hr; [|done].
    rewrite Hhalf in Hr. qc2q. split; lra.
  - apply Qcltb_ge in Hr.
    apply (Qcmult_le_mono_pos_l _ _ (Qc_of_Z 2)) in Hr; [|done].
    rewrite Hhalf in Hr.
    destruct (Qcltb half (x - Qc_of_Z f)) eqn:Hr'.
    + apply Qcltb_lt in Hr'.
      apply (Qcmult_lt_mono_pos_l _ _ (Qc_of_Z 2)) in Hr'; [|done].
      rewrite Hhalf in Hr'.
      rewrite Z2Qc_inj_add. qc2q. split; lra.
    + apply Qcltb_ge in Hr'.
      apply (Qcmult_le_mono_pos_l _ _ (Qc_of_Z 2)) in Hr'; [|done].
      rewrite Hhalf in Hr'.
      destruct (Z.even f); rewrite ?Z2Qc_inj_add; qc2q; split; lra.
Qed.

(** No integer is nearer to [x] than [round(x)]. *)
Lemma py_round_nearest (x : Qc) (n : Z) :
  Qcabs (x - Qc_of_Z (py_round x)) ≤ Qcabs (x - Qc_of_Z n).
Proof.
  destruct (py_round_close x) as [Hlo Hhi].
  set (R := py_round x) in *.
  destruct (Z.lt_trichotomy n R) as [Hn|[->|Hn]].
  - assert (Hn' : Qc_of_Z n + Qc_of_Z 1 ≤ Qc_of_Z R).
    { rewrite <-Z2Qc_inj_add. apply (proj1 (Z2Qc_inj_le _ _)). lia. }
    apply Qcabs_case; intros H1; apply Qcabs_case; intros H2;
      qc2q; lra.
  - apply Qcle_refl.
  - assert (Hn' : Qc_of_Z R + Qc_of_Z 1 ≤ Qc_of_Z n).
    { rewrite <-Z2Qc_inj_add. apply (proj1 (Z2Qc_inj_le _ _)). lia. }
    apply Qcabs_case; intros H1; apply Qcabs_case; intros H2;
      qc2q; lra.
Qed.

(** Rounding [cost / m] and multiplying back gives a multiple of [m]
    nearest to [cost]. *)
Lemma round_to_multiple (m : Z) (cost : Qc) :
  (0 < m)%Z →
  nearest_multiple m cost (py_round (cost / Qc_of_Z m) * m).
Proof.
  intros Hm. split; [by eexists|]. intros n.
  assert (Hm0 : Qc_of_Z m ≠ 0) by (apply Qc_of_Z_nonzero; lia).
  assert (Hscale : ∀ k, cost - Qc_of_Z (k * m)
                        = Qc_of_Z m * (cost / Qc_of_Z m - Qc_of_Z k)).
  { intros k. rewrite Z2Qc_inj_mul. by field. }
  rewrite !Hscale, !Qcabs_Qcmult.
  apply Qcmult_le_mono_nonneg_l; [apply Qcabs_nonneg|].
  apply py_round_nearest.
Qed.

(** C8.  [round_result] rounds to a nearest multiple of 50 from 800 on, of
    10 from 250 to below 800, of 5 from 85 to below 250, and truncates
    below 85.  A plain order of one piece at a base cost of 1000 costs
    1000 before rounding, which is in the first tier, rounds to 1000, and
    its total is that price once. *)
Theorem round_result_tiers :
  (∀ cost, Qc_of_Z 800 ≤ cost →
     round_result cost = (py_round (cost / Qc_of_Z 50) * 50)%Z
     ∧ nearest_multiple 50 cost (round_result cost))
  ∧ (∀ cost, Qc_of_Z 250 ≤ cost → cost < Qc_of_Z 800 →
       round_result cost = (py_round (cost / Qc_of_Z 10) * 10)%Z
       ∧ nearest_multiple 10 cost (round_result cost))
  ∧ (∀ cost, Qc_of_Z 85 ≤ cost → cost < Qc_of_Z 250 →
       round_result cost = (py_round (cost / Qc_of_Z 5) * 5)%Z
       ∧ nearest_multiple 5 cost (round_result cost))
  ∧ (∀ cost, cost < Qc_of_Z 85 → round_result cost = Qctrunc cost)
  ∧ (∀ (float_pow : Z → Qc → Qc) (many_items one_set : Qc) (additional : Z),
       let order := plain_order float_pow many_items one_set additional 1 1 in
       main_cost 1000 order = Qc_of_Z 1000
       ∧ Qc_of_Z 800 ≤ main_cost 1000 order
       ∧ main_calculation 1000 1 order = (1000%Z, Qc_of_Z (1000 * 1))).
Proof.
  split_and!.
  - intros cost H800. unfold round_result.
    rewrite (proj2 (Qcleb_le _ _)) by done.
    split; [done|]. by apply round_to_multiple.
  - intros cost H250 H800. unfold round_result.
    rewrite (proj2 (Qcleb_gt _ _)) by done.
    rewrite (proj2 (Qcleb_le _ _)), (proj2 (Qcltb_lt _ _)) by done. simpl.
    split; [done|]. by apply round_to_multiple.
  - intros cost H85 H250. unfold round_result.
    assert (cost < Qc_of_Z 800).
    { eapply Qclt_trans; [exact H250|]. by apply (proj1 (Z2Qc_inj_lt _ _)). }
    rewrite (proj2 (Qcleb_gt (Qc_of_Z 800) _)) by done.
    rewrite (proj2 (Qcleb_gt (Qc_of_Z 250) _)) by done. simpl.
    rewrite (proj2 (Qcleb_le _ _)), (proj2 (Qcltb_lt _ _)) by done. simpl.
    split; [done|]. by apply round_to_multiple.
  - intros cost H85. unfold round_result.
    assert (cost < Qc_of_Z 250).
    { eapply Qclt_trans; [exact H85|]. by apply (proj1 (Z2Qc_inj_lt _ _)). }
    assert (cost < Qc_of_Z 800).
    { eapply Qclt_trans; [exact H85|]. by apply (proj1 (Z2Qc_inj_lt _ _)). }
    rewrite (proj2 (Qcleb_gt (Qc_of_Z 800) _)) by done.
    rewrite (proj2 (Qcleb_gt (Qc_of_Z 250) _)) by done. simpl.
    by rewrite (proj2 (Qcleb_gt (Qc_of_Z 85) _)) by done.
  - intros float_pow many_items one_set additional order.
    assert (Hcost : main_cost 1000 order = Qc_of_Z 1000)
      by (by apply Qc_is_canon).
    split_and!; [done| |].
    + rewrite Hcost. by apply (proj1 (Z2Qc_inj_le _ _)).
    + unfold main_calculation. rewrite Hcost.
      assert (Hr : round_result (Qc_of_Z 1000) = 1000%Z) by (by vm_compute).
      rewrite Hr. f_equal. by apply Qc_is_canon.
Qed.

Lemma round_result_tiers_witness :
  round_result (Qc_of_Z 1000) = (py_round (Qc_of_Z 1000 / Qc_of_Z 50) * 50)%Z
  ∧ nearest_multiple 50 (Qc_of_Z 1000) (round_result (Qc_of_Z 1000)).
Proof.
  apply (proj1 round_result_tiers (Qc_of_Z 1000)).
  vm_compute. discriminate.
Defined.

End Rounding.

(** ** Bitmaps *)
Section Bitmap.
Import MonochromeBMP.

Lemma from_bytes_nonneg (bs : list byte) : 0 ≤ from_bytes bs.
Proof. induction bs as [|b bs IH]; simpl; lia. Qed.

(** One byte gives the bits that are still within the width. *)
Lemma unpack_spec (byte_value x width : Z) :
  Forall is_bit (unpack byte_value x width)
  ∧ Z.of_nat (length (unpack byte_value x width))
    = Z.max 0 (Z.min 8 (width - x * 8)).
Proof.
  unfold unpack.
  change (seqZ 0 8) with [0; 1; 2; 3; 4; 5; 6; 7]. cbn [flat_map].
  split.
  - repeat (apply Forall_app; split); try (by constructor);
      match goal with |- context [?a <? ?b] => destruct (a <? b) end;
      try (by constructor);
      apply Forall_singleton; unfold is_bit;
      match goal with |- context [?a =? ?b] => destruct (a =? b) end; auto.
  - repeat match goal with
           | |- context [?a <? ?b] => destruct (Z.ltb_spec a b); try lia
           end; simpl; lia.
Qed.

(** Reading the bytes [a], ..., [a + n - 1] of a row appends their bits
    that lie within the width. *)
Lemma read_row_spec (contents : list byte) (width : Z) (n : nat) :
  ∀ (a : Z) (pos : nat) (row row' : list Z) (pos' : nat),
    read_row contents width (seqZ a (Z.of_nat n)) pos row = Ok (row', pos') →
    Forall is_bit row →
    Forall is_bit row'
    ∧ Z.of_nat (length row')
      = Z.of_nat (length row)
        + Z.max 0 (Z.min (8 * Z.of_nat n) (width - a * 8)).
Proof.
  induction n as [|n IH]; intros a pos row row' pos' Hread Hbits.
  - simpl in Hread. injection Hread as <- <-. split; [done|lia].
  - rewrite seqZ_cons in Hread by lia.
    replace (Z.pred (Z.of_nat (S n))) with (Z.of_nat n) in Hread by lia.
    simpl in Hread.
    destruct (ord (read contents pos 1)) as [byte_value|e]; [|done].
    simpl in Hread.
    destruct (unpack_spec byte_value a width) as [Hunpack Hlen].
    apply IH in Hread as [Hrow' Hlen']; [|by apply Forall_app].
    split; [done|].
    rewrite Hlen', length_app, Nat2Z.inj_add, Hlen. lia.
Qed.

(** A row read in full holds exactly [width] bits. *)
Lemma read_row_full (contents : list byte) (width : Z) (pos : nat)
    (row : list Z) (pos' : nat) :
  0 ≤ width →
  read_row contents width
    (seqZ 0 (Z.of_nat (Z.to_nat ((width + 7) / 8)))) pos [] = Ok (row, pos') →
  Forall is_bit row ∧ Z.of_nat (length row) = width.
Proof.
  intros Hw Hread.
  apply read_row_spec in Hread as [Hbits Hlen]; [|constructor].
  split; [done|]. rewrite Hlen. simpl length.
  rewrite Z2Nat.id by (apply Z.div_pos; lia).
  assert (width ≤ 8 * ((width + 7) / 8)) by (Z.div_mod_to_equations; lia).
  lia.
Qed.

(** The rows appended by [read_rows] are full rows, and when no row fails
    there are as many as asked for. *)
Lemma read_rows_spec (contents : list byte) (width : Z) (padding : nat)
    (n : nat) :
  0 ≤ width →
  ∀ (pos : nat) (pixel_data pixel_data' : list (list Z)) (raised : option exn),
    read_rows contents width (Z.to_nat ((width + 7) / 8)) padding n pos
      pixel_data = (pixel_data', raised) →
    Forall (λ row, Forall is_bit row ∧ Z.of_nat (length row) = width)
      pixel_data →
    Forall (λ row, Forall is_bit row ∧ Z.of_nat (length row) = width)
      pixel_data'
    ∧ (raised = None → length pixel_data' = (length pixel_data + n)%nat).
Proof.
  intros Hw. induction n as [|n IH]; intros pos pd pd' raised Hread Hpd.
  - simpl in Hread. injection Hread as <- <-. split; [done|lia].
  - simpl in Hread.
    destruct (read_row _ _ _ _ _) as [[row pos']|e] eqn:Hrow.
    + apply read_row_full in Hrow; [|done].
      apply IH in Hread as [Hpd' Hlen].
      * split; [done|]. intros Hnone. rewrite (Hlen Hnone), length_app.
        simpl. lia.
      * apply Forall_app. split; [done|]. by apply Forall_singleton.
    + injection Hread as <- <-. split; [done|discriminate].
Qed.

(** On rows of bits, the ones and the zeros are all there is. *)
Lemma count_bits (row : list Z) :
  Forall is_bit row → count 1 row + count 0 row = Z.of_nat (length row).
Proof.
  unfold count. induction 1 as [|p row [->| ->] _ IH]; [done| |].
  - rewrite (filter_cons_False (λ p, p = 1)) by done.
    rewrite (filter_cons_True (λ p, p = 0)) by done. simpl length. lia.
  - rewrite (filter_cons_True (λ p, p = 1)) by done.
    rewrite (filter_cons_False (λ p, p = 0)) by done. simpl length. lia.
Qed.

Lemma count_pixels_fold (width : Z) (pixel_data : list (list Z))
    (white black : Z) :
  Forall (λ row, Forall is_bit row ∧ Z.of_nat (length row) = width)
    pixel_data →
  let '(white', black') :=
    fold_left
      (λ '(white_pixels, black_pixels) row,
         (white_pixels + count 1 row, black_pixels + count 0 row))
      pixel_data (white, black) in
  white' + black' = white + black + width * Z.of_nat (length pixel_data).
Proof.
  intros Hpd. revert white black.
  induction Hpd as [|row pd [Hbits Hlen] _ IH]; intros white black.
  - simpl. lia.
  - simpl fold_left. specialize (IH (white + count 1 row) (black + count 0 row)).
    destruct (fold_left _ pd _) as [white' black'].
    pose proof (count_bits row Hbits). simpl length. lia.
Qed.

(** C10.  After a bitmap has been read without an exception, every row of
    [pixel_data] holds exactly [width] entries, each 0 or 1, there are
    [height] rows, and the two counts of [count_pixels] add up to
    [width * height]. *)
Theorem count_pixels_total (file : option (list byte)) (self : bmp) :
  _read_bmp file = (self, None) →
  Forall (λ row, Z.of_nat (length row) = width self ∧ Forall is_bit row)
    (pixel_data self)
  ∧ Z.of_nat (length (pixel_data self)) = height self
  ∧ (count_pixels self).1 + (count_pixels self).2
    = width self * height self.
Proof.
  unfold _read_bmp. destruct file as [contents|]; [|discriminate].
  set (w := from_bytes (read contents 18 4)).
  set (h := from_bytes (read contents 22 4)).
  pose proof (from_bytes_nonneg (read contents 18 4)) as Hw. fold w in Hw.
  pose proof (from_bytes_nonneg (read contents 22 4)) as Hh. fold h in Hh.
  destruct (read_rows _ _ _ _ _ _ _) as [pd raised] eqn:Hrows.
  intros [= <- ->]. simpl.
  apply read_rows_spec in Hrows as [Hpd Hlen]; [|done|constructor].
  specialize (Hlen eq_refl). simpl in Hlen.
  split_and!.
  - eapply Forall_impl; [exact Hpd|]. by intros row [? ?].
  - rewrite Hlen. lia.
  - unfold count_pixels. simpl.
    pose proof (count_pixels_fold w pd 0 0 Hpd) as Hcount.
    destruct (fold_left _ pd _) as [white black]. simpl.
    rewrite Hcount, Hlen. lia.
Qed.

Lemma count_pixels_total_witness :
  let self := (_read_bmp (Some Samples.two_rows)).1 in
  Forall (λ row, Z.of_nat (length row) = width self ∧ Forall is_bit row)
    (pixel_data self)
  ∧ Z.of_nat (length (pixel_data self)) = height self
  ∧ (count_pixels self).1 + (count_pixels self).2
    = width self * height self.
Proof.
  apply (count_pixels_total (Some Samples.two_rows)). reflexivity.
Defined.

End Bitmap.

(** ** The cost grid: queries off the catalogue *)
Section GridEdges.
Import Interpolation CostGridInterpolator GridInvariants.

Ltac split_rungs :=
  repeat first
    [ rewrite filter_nil
    | rewrite filter_cons; simpl; case_decide; try lia ].

Lemma filter_all {A : Type} (P : A → Prop) `{∀ x, Decision (P x)}
    (l : list A) :
  Forall P l → filter P l = l.
Proof.
  induction 1 as [|x l Hx _ IH]; [done|].
  by rewrite filter_cons_True, IH.
Qed.

Lemma filter_none {A : Type} (P : A → Prop) `{∀ x, Decision (P x)}
    (l : list A) :
  Forall (λ x, ¬ P x) l → filter P l = [].
Proof.
  induction 1 as [|x l Hx _ IH]; [done|].
  by rewrite filter_cons_False.
Qed.

Lemma grid_lookup_in (grid : cost_grid) (k : row_key) (prices : list Z) :
  grid_lookup grid k = Ok prices → (k, prices) ∈ grid.
Proof.
  induction grid as [|[k' p'] grid IH]; simpl; [done|].
  case_bool_decide as Hk.
  - intros [= ->]. subst k'. left.
  - intros Hl. right. by apply IH.
Qed.

(** The first loop against the rows of least and greatest area. *)
Lemma extreme_keys_fold (rows : cost_grid) :
  ∀ (st : row_key * row_key) (lo hi : option (row_key * list Z)),
    least_agrees st.1 lo → greatest_agrees st.2 hi →
    least_agrees (fold_left extreme_step (rows.*1) st).1
      (fold_left better_upper rows lo)
    ∧ greatest_agrees (fold_left extreme_step (rows.*1) st).2
        (fold_left better_lower rows hi).
Proof.
  induction rows as [|[k p] rows IH]; intros [lk bk] lo hi Hlo Hhi;
    [done|].
  simpl in *. apply IH; simpl.
  - destruct Hlo as [[-> Hb]|(b & -> & -> & Hb)]; simpl.
    + destruct (Z.leb_spec (key_area k) (key_area lower_key0)) as [Hle|Hgt].
      * right. exists (k, p). split_and!; [|done|done].
        destruct lo as [b|]; simpl; [|done].
        rewrite (proj2 (Z.leb_le _ _)) by lia. done.
      * left. split; [done|].
        destruct lo as [b|]; simpl; [|done].
        destruct (Z.leb_spec (key_area k) (key_area b.1)); done.
    + destruct (Z.leb_spec (key_area k) (key_area b.1)) as [Hle|Hgt].
      * right. exists (k, p). split_and!; [done|done|simpl; lia].
      * right. exists b. done.
  - destruct Hhi as [[-> Hb]|(b & -> & -> & Hb)]; simpl.
    + destruct (Z.leb_spec (key_area bigger_key0) (key_area k)) as [Hle|Hgt].
      * right. exists (k, p). split_and!; [|done|done].
        destruct hi as [b|]; simpl; [|done].
        rewrite (proj2 (Z.leb_le _ _)) by lia. done.
      * left. split; [done|].
        destruct hi as [b|]; simpl; [|done].
        destruct (Z.leb_spec (key_area b.1) (key_area k)); done.
    + destruct (Z.leb_spec (key_area b.1) (key_area k)) as [Hle|Hgt].
      * right. exists (k, p). split_and!; [done|done|simpl; lia].
      * right. exists b. done.
Qed.

(** With no row below the query the scan leaves the lower key alone, and
    with none above it the bigger key. *)
Lemma bound_scan_none_below (rows : cost_grid) (area : Z) :
  Forall (λ row, area < key_area row.1) rows →
  ∀ lower_key bigger_key,
    (bound_scan rows area lower_key bigger_key).1 = (false, lower_key).
Proof.
  induction 1 as [|[k p] rows Hk _ IH]; intros lower_key bigger_key;
    [done|].
  simpl in *. rewrite (proj2 (Z.eqb_neq _ _)) by lia.
  rewrite (proj2 (Z.ltb_ge (key_area k) area)) by lia. simpl. apply IH.
Qed.

Lemma bound_scan_none_above (rows : cost_grid) (area : Z) :
  Forall (λ row, key_area row.1 < area) rows →
  ∀ lower_key bigger_key,
    (bound_scan rows area lower_key bigger_key).2 = bigger_key.
Proof.
  induction 1 as [|[k p] rows Hk _ IH]; intros lower_key bigger_key;
    [done|].
  simpl in *. rewrite (proj2 (Z.eqb_neq _ _)) by lia.
  rewrite (proj2 (Z.leb_gt area (key_area k))) by lia. simpl. apply IH.
Qed.

(** The row of least area, when one has an area of at most
    1_000_000 * 1_000_000, is where the first loop leaves the lower key. *)
Lemma extreme_keys_least (grid : cost_grid) :
  (∃ row, row ∈ grid ∧ key_area row.1 ≤ key_area lower_key0) →
  ∃ b, fold_left better_upper grid None = Some b
       ∧ (extreme_keys grid).1 = b.1.
Proof.
  intros (row & Hin & Hrow).
  destruct (extreme_keys_fold grid (lower_key0, bigger_key0) None None)
    as [Hlo _]; [by left|by left|].
  fold (extreme_keys grid) in Hlo.
  destruct Hlo as [[_ Hb]|(b & Hb & Hk & _)]; [|by exists b].
  exfalso. destruct grid as [|x l]; [by apply elem_of_nil in Hin|].
  simpl in Hb.
  destruct (better_upper_fold l x) as (r & Hr & _ & Hx & Hall).
  rewrite Hr in Hb.
  apply elem_of_cons in Hin as [->|Hin]; [lia|].
  specialize (Hall row Hin). lia.
Qed.

Lemma extreme_keys_greatest (grid : cost_grid) :
  (∃ row, row ∈ grid ∧ key_area bigger_key0 ≤ key_area row.1) →
  ∃ b, fold_left better_lower grid None = Some b
       ∧ (extreme_keys grid).2 = b.1.
Proof.
  intros (row & Hin & Hrow).
  destruct (extreme_keys_fold grid (lower_key0, bigger_key0) None None)
    as [_ Hhi]; [by left|by left|].
  fold (extreme_keys grid) in Hhi.
  destruct Hhi as [[_ Hb]|(b & Hb & Hk & _)]; [|by exists b].
  exfalso. destruct grid as [|x l]; [by apply elem_of_nil in Hin|].
  simpl in Hb.
  destruct (better_lower_fold l x) as (r & Hr & _ & Hx & Hall).
  rewrite Hr in Hb.
  apply elem_of_cons in Hin as [->|Hin]; [lia|].
  specialize (Hall row Hin). lia.
Qed.

(** Below every catalogued area [get_keys] answers with the one row of
    least area. *)
Lemma get_keys_below (grid : cost_grid) (width height : Z) :
  (∃ row, row ∈ grid ∧ key_area row.1 ≤ key_area lower_key0) →
  Forall (λ row, width * height < key_area row.1) grid →
  ∃ b, upper_row grid (width * height) = Some b ∧ b ∈ grid
       ∧ get_keys grid width height = OneKey b.1.
Proof.
  intros Hsmall Habove.
  destruct (extreme_keys_least grid Hsmall) as (b & Hb & Hlk).
  assert (Hup : upper_row grid (width * height) = Some b).
  { unfold upper_row. by rewrite (filter_all _ grid Habove). }
  destruct (upper_row_least grid (width * height)) as (b' & Hb' & Hin & _).
  { destruct Hsmall as (row & Hin & _). exists row. split; [done|].
    rewrite Forall_forall in Habove. by apply Habove. }
  rewrite Hup in Hb'. injection Hb' as <-.
  exists b. split_and!; [done|done|].
  unfold get_keys.
  pose proof (extreme_keys_bounds (grid.*1) (lower_key0, bigger_key0)) as Hext.
  fold (extreme_keys grid) in Hext.
  destruct (extreme_keys grid) as [lower_key bigger_key]. simpl in *.
  subst lower_key. destruct Hext as [_ Hext].
  destruct (bound_scan_spec grid (width * height) b.1 bigger_key
              None None) as (lk & bk & Hscan & _ & Hbk).
  { eapply Forall_impl; [exact Habove|]. simpl. lia. }
  { intros row Hrow Hlt. rewrite Forall_forall in Habove.
    specialize (Habove row Hrow). simpl in Habove. lia. }
  { intros row Hrow _. apply Hext. by apply list_elem_of_fmap_2. }
  pose proof (bound_scan_none_below grid _ Habove b.1 bigger_key) as Hlk.
  rewrite Hscan in Hlk. simpl in Hlk. injection Hlk as ->.
  fold (upper_row grid (width * height)) in Hbk. rewrite Hup in Hbk.
  simpl in Hbk. subst bk. rewrite Hscan.
  by rewrite bool_decide_eq_true_2.
Qed.

(** Above every catalogued area it answers with the one row of greatest
    area. *)
Lemma get_keys_above (grid : cost_grid) (width height : Z) :
  (∃ row, row ∈ grid ∧ key_area bigger_key0 ≤ key_area row.1) →
  Forall (λ row, key_area row.1 < width * height) grid →
  ∃ b, lower_row grid (width * height) = Some b ∧ b ∈ grid
       ∧ get_keys grid width height = OneKey b.1.
Proof.
  intros Hbig Hbelow.
  destruct (extreme_keys_greatest grid Hbig) as (b & Hb & Hbk).
  assert (Hlow : lower_row grid (width * height) = Some b).
  { unfold lower_row. by rewrite (filter_all _ grid Hbelow). }
  destruct (lower_row_greatest grid (width * height)) as (b' & Hb' & Hin & _).
  { destruct Hbig as (row & Hin & _). exists row. split; [done|].
    rewrite Forall_forall in Hbelow. by apply Hbelow. }
  rewrite Hlow in Hb'. injection Hb' as <-.
  exists b. split_and!; [done|done|].
  unfold get_keys.
  pose proof (extreme_keys_bounds (grid.*1) (lower_key0, bigger_key0)) as Hext.
  fold (extreme_keys grid) in Hext.
  destruct (extreme_keys grid) as [lower_key bigger_key]. simpl in *.
  subst bigger_key. destruct Hext as [_ Hext].
  destruct (bound_scan_spec grid (width * height) lower_key b.1
              None None) as (lk & bk & Hscan & Hlk & _).
  { eapply Forall_impl; [exact Hbelow|]. simpl. lia. }
  { intros row Hrow _. apply Hext. by apply list_elem_of_fmap_2. }
  { intros row Hrow Hlt. rewrite Forall_forall in Hbelow.
    specialize (Hbelow row Hrow). simpl in Hbelow. lia. }
  pose proof (bound_scan_none_above grid _ Hbelow lower_key b.1) as Hbk.
  rewrite Hscan in Hbk. simpl in Hbk. subst bk.
  fold (lower_row grid (width * height)) in Hlk. rewrite Hlow in Hlk.
  simpl in Hlk. subst lk. rewrite Hscan.
  by rewrite bool_decide_eq_true_2.
Qed.

Lemma grid_lookup_missing (grid : cost_grid) (k : row_key) :
  k ∉ grid.*1 → grid_lookup grid k = Raise KeyError.
Proof.
  induction grid as [|[k' p'] grid IH]; simpl; [done|].
  intros Hk. apply not_elem_of_cons in Hk as [Hne Hk].
  rewrite bool_decide_eq_false_2 by done. by apply IH.
Qed.

(** On an exact match [get_keys] answers with the first row of the queried
    area. *)
Lemma get_keys_exact (pre post : cost_grid) (k : row_key) (prices : list Z)
    (width height : Z) :
  Forall (λ row, key_area row.1 ≠ width * height) pre →
  key_area k = width * height →
  get_keys (pre ++ (k, prices) :: post) width height = OneKey k.
Proof.
  intros Hpre Hk. unfold get_keys.
  destruct (extreme_keys _) as [lower_key bigger_key].
  by destruct (bound_scan_exact pre post k prices (width * height)
                 lower_key bigger_key Hpre Hk) as [bk ->].
Qed.

(** With one key resolved, the cost is the quantity interpolation of its
    row. *)
Lemma get_cost_one_key (grid : cost_grid) (height width n : Z)
    (k : row_key) (prices : list Z) :
  get_keys grid height width = OneKey k →
  grid_lookup grid k = Ok prices →
  length prices = 7%nat →
  get_cost grid height width n = interpolateAtQuantity prices n.
Proof.
  intros Hk Hl Hlen. unfold get_cost.
  rewrite Hk, quantity_bounds_spec. simpl. rewrite Hl. simpl.
  apply row_cost_spec; [done|apply quantity_bounds_spec].
Qed.

Lemma well_formed_length (grid : cost_grid) (k : row_key) (prices : list Z) :
  well_formed grid → (k, prices) ∈ grid → length prices = 7%nat.
Proof.
  intros [_ Hlen] Hin. rewrite Forall_forall in Hlen.
  by apply (Hlen (k, prices)).
Qed.

(** X1.  [get_cost] depends on the two sizes through their product only:
    swapping height and width changes nothing. *)
Theorem get_cost_symmetric (grid : cost_grid) (height width n : Z) :
  get_cost grid height width n = get_cost grid width height n.
Proof.
  unfold get_cost, get_keys. by rewrite (Z.mul_comm height width).
Qed.

(** X2.  Below every catalogued area, a grid with a row of area at most
    1_000_000 * 1_000_000 is priced on its row of least area alone (the
    last of several of that area): the cost is the quantity interpolation
    of that row, with no extrapolation on the area axis. *)
Theorem get_cost_below_catalogue (grid : cost_grid) (height width n : Z) :
  well_formed grid →
  (∃ row, row ∈ grid ∧ key_area row.1 ≤ 1000000 * 1000000) →
  (∀ row, row ∈ grid → width * height < key_area row.1) →
  ∃ k prices,
    (k, prices) ∈ grid
    ∧ upper_row grid (width * height) = Some (k, prices)
    ∧ (∀ row, row ∈ grid → key_area k ≤ key_area row.1)
    ∧ get_cost grid height width n = interpolateAtQuantity prices n.
Proof.
  intros Hwf Hsmall Habove.
  rewrite (Z.mul_comm width height) in Habove |- *.
  apply Forall_forall in Habove.
  destruct (get_keys_below grid height width Hsmall Habove)
    as ([k prices] & Hup & Hin & Hkeys).
  exists k, prices. split_and!; [done|done| |].
  - destruct (upper_row_least grid (height * width))
      as (b & Hb & _ & _ & Hleast).
    { destruct Hsmall as (row & Hrow & _). exists row. split; [done|].
      rewrite Forall_forall in Habove. by apply Habove. }
    rewrite Hup in Hb. injection Hb as <-.
    intros row Hrow. apply (Hleast row Hrow).
    rewrite Forall_forall in Habove. by apply Habove.
  - apply (get_cost_one_key grid height width n k prices Hkeys).
    + apply grid_lookup_NoDup; [apply Hwf|done].
    + by apply (well_formed_length grid k).
Qed.

Lemma get_cost_below_catalogue_witness :
  ∃ k prices,
    (k, prices) ∈ Samples.two_sizes
    ∧ upper_row Samples.two_sizes (20 * 10) = Some (k, prices)
    ∧ (∀ row, row ∈ Samples.two_sizes → key_area k ≤ key_area row.1)
    ∧ get_cost Samples.two_sizes 10 20 7 = interpolateAtQuantity prices 7.
Proof.
  apply (get_cost_below_catalogue Samples.two_sizes 10 20 7).
  - split.
    + apply NoDup_cons. split; [|apply NoDup_singleton].
      intros Hin%list_elem_of_singleton. discriminate Hin.
    + repeat constructor.
  - exists (RowKey "small" 50 30, [10; 20; 30; 40; 50; 60; 70]).
    split; [left|vm_compute; discriminate].
  - intros row Hrow.
    apply elem_of_cons in Hrow as [->|Hrow]; [reflexivity|].
    apply list_elem_of_singleton in Hrow as ->. reflexivity.
Defined.

(** X3.  Above every catalogued area, a grid with a row of non-negative
    area is priced on its row of greatest area alone (the last of several
    of that area). *)
Theorem get_cost_above_catalogue (grid : cost_grid) (height width n : Z) :
  well_formed grid →
  (∃ row, row ∈ grid ∧ 0 ≤ key_area row.1) →
  (∀ row, row ∈ grid → key_area row.1 < width * height) →
  ∃ k prices,
    (k, prices) ∈ grid
    ∧ lower_row grid (width * height) = Some (k, prices)
    ∧ (∀ row, row ∈ grid → key_area row.1 ≤ key_area k)
    ∧ get_cost grid height width n = interpolateAtQuantity prices n.
Proof.
  intros Hwf Hbig Hbelow.
  rewrite (Z.mul_comm width height) in Hbelow |- *.
  apply Forall_forall in Hbelow.
  destruct (get_keys_above grid height width Hbig Hbelow)
    as ([k prices] & Hlow & Hin & Hkeys).
  exists k, prices. split_and!; [done|done| |].
  - destruct (lower_row_greatest grid (height * width))
      as (b & Hb & _ & _ & Hmost).
    { destruct Hbig as (row & Hrow & _). exists row. split; [done|].
      rewrite Forall_forall in Hbelow. by apply Hbelow. }
    rewrite Hlow in Hb. injection Hb as <-.
    intros row Hrow. apply (Hmost row Hrow).
    rewrite Forall_forall in Hbelow. by apply Hbelow.
  - apply (get_cost_one_key grid height width n k prices Hkeys).
    + apply grid_lookup_NoDup; [apply Hwf|done].
    + by apply (well_formed_length grid k).
Qed.

Lemma get_cost_above_catalogue_witness :
  ∃ k prices,
    (k, prices) ∈ Samples.two_sizes
    ∧ lower_row Samples.two_sizes (200 * 100) = Some (k, prices)
    ∧ (∀ row, row ∈ Samples.two_sizes → key_area row.1 ≤ key_area k)
    ∧ get_cost Samples.two_sizes 100 200 7 = interpolateAtQuantity prices 7.
Proof.
  apply (get_cost_above_catalogue Samples.two_sizes 100 200 7).
  - split.
    + apply NoDup_cons. split; [|apply NoDup_singleton].
      intros Hin%list_elem_of_singleton. discriminate Hin.
    + repeat constructor.
  - exists (RowKey "small" 50 30, [10; 20; 30; 40; 50; 60; 70]).
    split; [left|vm_compute; discriminate].
  - intros row Hrow.
    apply elem_of_cons in Hrow as [->|Hrow]; [reflexivity|].
    apply list_elem_of_singleton in Hrow as ->. reflexivity.
Defined.

(** The first loop keeps its initial lower key on rows that are all larger
    than it. *)
Lemma extreme_keys_large_rows (rows : cost_grid) (bigger_key : row_key) :
  Forall (λ row, key_area lower_key0 < key_area row.1) rows →
  (fold_left extreme_step (rows.*1) (lower_key0, bigger_key)).1 = lower_key0.
Proof.
  intros Hrows. revert bigger_key.
  induction Hrows as [|[k p] rows Hk _ IH]; intros bigger_key; [done|].
  simpl in *. unfold extreme_step at 2. simpl.
  rewrite (proj2 (Z.leb_gt (key_area k) (key_area lower_key0))) by done.
  apply IH.
Qed.

(** X4.  On a grid with no row of area at most 1_000_000 * 1_000_000, the
    empty grid among them, a query of at most that area raises [KeyError]:
    the initial lower key, which is no key of the grid, is looked up. *)
Theorem get_cost_no_small_row (grid : cost_grid) (height width n : Z) :
  (∀ row, row ∈ grid → 1000000 * 1000000 < key_area row.1) →
  width * height ≤ 1000000 * 1000000 →
  get_cost grid height width n = Raise KeyError.
Proof.
  intros Hlarge Harea. rewrite (Z.mul_comm width height) in Harea.
  apply Forall_forall in Hlarge.
  assert (Habove : Forall (λ row, height * width < key_area row.1) grid).
  { eapply Forall_impl; [exact Hlarge|]. simpl. lia. }
  assert (Hmissing : lower_key0 ∉ grid.*1).
  { intros (row & Hk & Hin)%list_elem_of_fmap.
    rewrite Forall_forall in Hlarge. specialize (Hlarge row Hin).
    rewrite <-Hk in Hlarge. simpl in Hlarge. vm_compute in Hlarge.
    discriminate. }
  unfold get_cost, get_keys.
  pose proof (extreme_keys_large_rows grid bigger_key0 Hlarge) as Hlk.
  fold (extreme_keys grid) in Hlk.
  destruct (extreme_keys grid) as [lower_key bigger_key]. simpl in Hlk.
  subst lower_key.
  pose proof (bound_scan_none_below grid _ Habove lower_key0 bigger_key)
    as Hscan.
  destruct (bound_scan grid _ lower_key0 bigger_key) as [[point lk] bk].
  simpl in Hscan. injection Hscan as -> ->.
  rewrite quantity_bounds_spec. simpl.
  case_bool_decide; simpl; by rewrite grid_lookup_missing.
Qed.

Lemma get_cost_no_small_row_witness :
  get_cost [] 30 50 5 = Raise KeyError.
Proof.
  apply get_cost_no_small_row.
  - intros row Hrow. by apply elem_of_nil in Hrow.
  - vm_compute. discriminate.
Defined.

Lemma row_cost_same_index (prices : list Z) (n m i : Z) :
  row_cost prices n (i, i) = row_cost prices m (i, i).
Proof.
  unfold row_cost. simpl.
  destruct (py_index numbering_list i); simpl; [|done].
  destruct (py_index prices i); simpl; [|done].
  by rewrite !get_interpolation_same.
Qed.

Lemma quantity_bounds_low (n : Z) : n ≤ 1 → quantity_bounds n = Ok (0, 0).
Proof.
  intros Hn. rewrite quantity_bounds_spec.
  rewrite (proj2 (Z.ltb_ge _ _)) by lia.
  unfold lowerIndex, upperIndex, rungs, ladder. simpl imap.
  split_rungs; reflexivity.
Qed.

Lemma quantity_bounds_high (n : Z) :
  1000 < n → quantity_bounds n = Ok (6, -1).
Proof.
  intros Hn. rewrite quantity_bounds_spec.
  rewrite (proj2 (Z.ltb_lt _ _)) by lia.
  unfold lowerIndex, rungs, ladder. simpl imap.
  split_rungs; reflexivity.
Qed.

Lemma row_cost_high (prices : list Z) (n : Z) :
  length prices = 7%nat →
  row_cost prices n (6, -1) = row_cost prices 1000 (6, 6).
Proof.
  intros Hlen. unfold row_cost. simpl.
  rewrite (py_index_last7 prices Hlen).
  change (py_index numbering_list (-1)) with (py_index numbering_list 6).
  destruct (py_index numbering_list 6); simpl; [|done].
  destruct (py_index prices 6); simpl; [|done].
  by rewrite !get_interpolation_same.
Qed.

(** X5.  The quantity axis is clamped to the ladder: any quantity of at
    most 1, zero and negative ones included, is priced as 1 piece, and on
    a well-formed grid any quantity from 1000 on is priced as 1000. *)
Theorem get_cost_quantity_clamped (grid : cost_grid) (height width n : Z) :
  (n ≤ 1 → get_cost grid height width n = get_cost grid height width 1)
  ∧ (well_formed grid → 1000 ≤ n →
     get_cost grid height width n = get_cost grid height width 1000).
Proof.
  split.
  - intros Hn. unfold get_cost.
    rewrite (quantity_bounds_low n Hn), (quantity_bounds_low 1) by lia.
    simpl. destruct (get_keys grid height width) as [k|k0 k1].
    + destruct (grid_lookup grid k); simpl; [|done].
      apply row_cost_same_index.
    + destruct (grid_lookup grid k0) as [p0|]; simpl; [|done].
      destruct (grid_lookup grid k1) as [p1|]; simpl; [|done].
      by rewrite (row_cost_same_index p0 n 1), (row_cost_same_index p1 n 1).
  - intros Hwf Hn.
    destruct (decide (n = 1000)) as [->|Hne]; [done|].
    unfold get_cost.
    rewrite (quantity_bounds_high n) by lia.
    change (quantity_bounds 1000) with (Ok (A:=Z * Z) (6, 6)).
    simpl. destruct (get_keys grid height width) as [k|k0 k1].
    + destruct (grid_lookup grid k) as [p|] eqn:Hp; simpl; [|done].
      apply row_cost_high.
      apply (well_formed_length grid k p Hwf), grid_lookup_in, Hp.
    + destruct (grid_lookup grid k0) as [p0|] eqn:Hp0; simpl; [|done].
      destruct (grid_lookup grid k1) as [p1|] eqn:Hp1; simpl; [|done].
      rewrite (row_cost_high p0 n), (row_cost_high p1 n); [done| |].
      * apply (well_formed_length grid k1 p1 Hwf), grid_lookup_in, Hp1.
      * apply (well_formed_length grid k0 p0 Hwf), grid_lookup_in, Hp0.
Qed.

Lemma get_cost_quantity_clamped_witness :
  get_cost Samples.two_sizes 50 50 0 = get_cost Samples.two_sizes 50 50 1
  ∧ get_cost Samples.two_sizes 50 50 2000
    = get_cost Samples.two_sizes 50 50 1000.
Proof.
  split.
  - apply (proj1 (get_cost_quantity_clamped Samples.two_sizes 50 50 0)). lia.
  - apply (proj2 (get_cost_quantity_clamped Samples.two_sizes 50 50 2000));
      [|lia].
    split.
    + apply NoDup_cons. split; [|apply NoDup_singleton].
      intros Hin%list_elem_of_singleton. discriminate Hin.
    + repeat constructor.
Defined.

Local Open Scope Qc_scope.

Lemma Qc_convex (d1 d2 u v lo hi : Qc) :
  0 ≤ d1 → 0 ≤ d2 → d1 + d2 = 1 →
  lo ≤ u ≤ hi → lo ≤ v ≤ hi →
  lo ≤ d1 * u + d2 * v ≤ hi.
Proof.
  intros Hd1 Hd2 Hsum [Hu1 Hu2] [Hv1 Hv2].
  assert (Hsum' : (this d1 + this d2 == 1)%Q).
  { rewrite <-this_add, Hsum. reflexivity. }
  qc2q. split; nra.
Qed.

Lemma Qcdiv_nonneg (a b : Qc) : 0 ≤ a → 0 < b → 0 ≤ a / b.
Proof.
  intros Ha Hb. unfold Qcdiv.
  apply Qcmult_nonneg_nonneg; [done|]. by apply Qclt_le_weak, Qcinv_pos.
Qed.

(** X6.  Between two reference points of increasing abscissas the
    primitive never leaves the bracket of the two values: a bound that
    holds for both holds for the interpolated value. *)
Theorem get_interpolation_within (p x1 x2 : Z) (y1 y2 : num) (lo hi : Qc) :
  (x1 < x2)%Z → (x1 ≤ p ≤ x2)%Z →
  lo ≤ num_val y1 ≤ hi → lo ≤ num_val y2 ≤ hi →
  ∃ v, get_interpolation p (x1, y1) (x2, y2) = Ok v ∧ lo ≤ num_val v ≤ hi.
Proof.
  intros Hx Hp Hy1 Hy2.
  rewrite get_interpolation_distinct by lia.
  eexists. split; [done|]. simpl num_val.
  rewrite (Z.abs_eq (p - x1)), (Z.abs_eq (x2 - x1)) by lia.
  rewrite (Z.abs_neq (p - x2)) by lia.
  assert (Hspan : 0 < Qc_of_Z (x2 - x1)).
  { rewrite <-Z2Qc_inj_0. apply (proj1 (Z2Qc_inj_lt _ _)). lia. }
  apply Qc_convex; [| | |done|done].
  - apply Qcdiv_nonneg; [|done].
    rewrite <-Z2Qc_inj_0. apply (proj1 (Z2Qc_inj_le _ _)). lia.
  - apply Qcdiv_nonneg; [|done].
    rewrite <-Z2Qc_inj_0. apply (proj1 (Z2Qc_inj_le _ _)). lia.
  - rewrite Z2Qc_inj_opp, !Z2Qc_inj_sub.
    rewrite Z2Qc_inj_sub in Hspan.
    assert (Qc_of_Z x2 - Qc_of_Z x1 ≠ 0) by (by apply Qcpos_nonzero).
    by field.
Qed.

Lemma get_interpolation_within_witness :
  ∃ v, get_interpolation 7 (5%Z, NInt 20) (15%Z, NInt 30) = Ok v
       ∧ Qc_of_Z 20 ≤ num_val v ≤ Qc_of_Z 30.
Proof.
  apply (get_interpolation_within 7 5 15 (NInt 20) (NInt 30)
           (Qc_of_Z 20) (Qc_of_Z 30));
    first [lia | split; vm_compute; discriminate].
Defined.

(** The two rungs of step 2 are one rung, or two that enclose the
    quantity. *)
Lemma rung_bracket (n : Z) :
  lowerIndex n = upperIndex n
  ∨ ∃ x1 x2, ladder !! lowerIndex n = Some x1
             ∧ ladder !! upperIndex n = Some x2
             ∧ (x1 < x2)%Z ∧ (x1 ≤ n ≤ x2)%Z.
Proof.
  unfold lowerIndex, upperIndex, rungs, ladder. simpl imap.
  split_rungs;
    first [ by left
          | right; eexists _, _; split_and!; [reflexivity|reflexivity|lia..] ].
Qed.

(** One row priced at any quantity stays within the prices of the row. *)
Lemma interpolateAtQuantity_within (prices : list Z) (n lo hi : Z) :
  length prices = 7%nat →
  Forall (λ price, (lo ≤ price ≤ hi)%Z) prices →
  ∃ v, interpolateAtQuantity prices n = Ok v
       ∧ Qc_of_Z lo ≤ num_val v ≤ Qc_of_Z hi.
Proof.
  intros Hlen Hprices. unfold interpolateAtQuantity.
  pose proof (lowerIndex_lt n) as Hlo. pose proof (upperIndex_lt n) as Hhi.
  destruct (lookup_lt_is_Some_2 ladder (lowerIndex n)) as [x1 Hx1]; [done|].
  destruct (lookup_lt_is_Some_2 prices (lowerIndex n)) as [y1 Hy1]; [lia|].
  destruct (lookup_lt_is_Some_2 ladder (upperIndex n)) as [x2 Hx2]; [done|].
  destruct (lookup_lt_is_Some_2 prices (upperIndex n)) as [y2 Hy2]; [lia|].
  rewrite Hx1, Hy1, Hx2, Hy2.
  pose proof (Forall_lookup_1 _ _ _ _ Hprices Hy1) as Hb1.
  pose proof (Forall_lookup_1 _ _ _ _ Hprices Hy2) as Hb2.
  simpl in Hb1, Hb2.
  assert (Hq1 : Qc_of_Z lo ≤ Qc_of_Z y1 ≤ Qc_of_Z hi).
  { split; apply (proj1 (Z2Qc_inj_le _ _)); lia. }
  assert (Hq2 : Qc_of_Z lo ≤ Qc_of_Z y2 ≤ Qc_of_Z hi).
  { split; apply (proj1 (Z2Qc_inj_le _ _)); lia. }
  destruct (rung_bracket n) as [Heq|(x1' & x2' & Hx1' & Hx2' & Hlt & Hn)].
  - rewrite <-Heq in Hx2, Hy2. rewrite Hx1 in Hx2. rewrite Hy1 in Hy2.
    injection Hx2 as <-. injection Hy2 as <-.
    rewrite get_interpolation_same. by eexists.
  - rewrite Hx1 in Hx1'. rewrite Hx2 in Hx2'.
    injection Hx1' as <-. injection Hx2' as <-.
    by apply get_interpolation_within.
Qed.

Lemma first_match_split {A : Type} (P : A → Prop) `{∀ x, Decision (P x)}
    (l : list A) :
  Exists P l →
  ∃ pre x post, l = pre ++ x :: post ∧ Forall (λ y, ¬ P y) pre ∧ P x.
Proof.
  induction l as [|a l IH]; intros Hex; [by apply Exists_nil in Hex|].
  destruct (decide (P a)) as [Ha|Ha].
  - exists [], a, l. split_and!; [done|constructor|done].
  - apply Exists_cons in Hex as [?|Hex]; [done|].
    destruct (IH Hex) as (pre & x & post & -> & Hpre & Hx).
    exists (a :: pre), x, post. split_and!; [done|by constructor|done].
Qed.

(** X7.  On a well-formed, non-empty grid whose areas lie between 0 and
    1_000_000 * 1_000_000, [get_cost] returns for every query, raising
    nothing, and the cost stays within any bounds that hold for all
    tabulated prices. *)
Theorem get_cost_within_table (grid : cost_grid) (height width n lo hi : Z) :
  well_formed grid →
  grid ≠ [] →
  (∀ row, row ∈ grid → (0 ≤ key_area row.1 ≤ 1000000 * 1000000)%Z) →
  (∀ row price, row ∈ grid → price ∈ row.2 → (lo ≤ price ≤ hi)%Z) →
  ∃ v, get_cost grid height width n = Ok v
       ∧ Qc_of_Z lo ≤ num_val v ≤ Qc_of_Z hi.
Proof.
  intros Hwf Hne Hareas Hprices.
  assert (Hrow : ∀ k prices, (k, prices) ∈ grid →
            length prices = 7%nat
            ∧ Forall (λ price, (lo ≤ price ≤ hi)%Z) prices).
  { intros k prices Hin. split; [by apply (well_formed_length grid k)|].
    apply Forall_forall. intros price Hp. by apply (Hprices (k, prices)). }
  assert (Hsome : ∃ row, row ∈ grid).
  { destruct grid as [|row grid]; [done|]. exists row. left. }
  set (area := (height * width)%Z).
  destruct (decide (Exists (λ row, key_area row.1 = area) grid)) as [Hex|Hnex].
  - (* a row of the queried area *)
    apply first_match_split in Hex
      as (pre & [k prices] & post & Hgrid & Hpre & Hk); [|apply _].
    simpl in Hk.
    assert (Hin : (k, prices) ∈ grid).
    { rewrite Hgrid. apply elem_of_app. right. left. }
    destruct (Hrow k prices Hin) as [Hlen Hb].
    rewrite (get_cost_one_key grid height width n k prices); [|  | |done].
    + by apply interpolateAtQuantity_within.
    + rewrite Hgrid. by apply get_keys_exact.
    + apply grid_lookup_NoDup; [apply Hwf|done].
  - apply not_Exists_Forall in Hnex; [|apply _]. simpl in Hnex.
    destruct (decide (Exists (λ row, (key_area row.1 < area)%Z) grid))
      as [Hbelow|Hnbelow];
      destruct (decide (Exists (λ row, (area < key_area row.1)%Z) grid))
        as [Habove|Hnabove].
    + (* between two catalogued areas *)
      apply Exists_exists in Hbelow, Habove.
      destruct (get_keys_between grid height width Hbelow Habove Hnex)
        as ([klo plo] & [khi phi] & Hlo & Hhi & Hloin & Hhiin & Hkeys).
      destruct (lower_row_greatest grid area Hbelow) as (r & Hr & _ & Hrlt & _).
      destruct (upper_row_least grid area Habove) as (r' & Hr' & _ & Hrgt & _).
      fold area in Hlo, Hhi. rewrite Hlo in Hr. rewrite Hhi in Hr'.
      injection Hr as <-. injection Hr' as <-. simpl in Hrlt, Hrgt.
      destruct (Hrow klo plo Hloin) as [Hlenlo Hblo].
      destruct (Hrow khi phi Hhiin) as [Hlenhi Hbhi].
      unfold get_cost. rewrite Hkeys, quantity_bounds_spec. simpl.
      rewrite (grid_lookup_NoDup grid klo plo), (grid_lookup_NoDup grid khi phi)
        by (done || apply Hwf). simpl.
      rewrite !(row_cost_spec _ n) by (done || apply quantity_bounds_spec).
      destruct (interpolateAtQuantity_within plo n lo hi Hlenlo Hblo)
        as (vlo & -> & Hvlo).
      destruct (interpolateAtQuantity_within phi n lo hi Hlenhi Hbhi)
        as (vhi & -> & Hvhi).
      simpl. apply get_interpolation_within; [|lia|done|done].
      subst area. lia.
    + (* above every catalogued area *)
      apply not_Exists_Forall in Hnabove; [|apply _]. simpl in Hnabove.
      assert (Hall : Forall (λ row, (key_area row.1 < area)%Z) grid).
      { rewrite Forall_forall in Hnabove, Hnex |- *. intros row Hin.
        specialize (Hnabove row Hin). specialize (Hnex row Hin).
        simpl in *. lia. }
      destruct (get_keys_above grid height width)
        as ([k prices] & _ & Hin & Hkeys); [|done|].
      { destruct Hsome as [row Hin]. exists row. split; [done|].
        apply (Hareas row Hin). }
      destruct (Hrow k prices Hin) as [Hlen Hb].
      rewrite (get_cost_one_key grid height width n k prices); [|done| |done].
      * by apply interpolateAtQuantity_within.
      * apply grid_lookup_NoDup; [apply Hwf|done].
    + (* below every catalogued area *)
      apply not_Exists_Forall in Hnbelow; [|apply _]. simpl in Hnbelow.
      assert (Hall : Forall (λ row, (area < key_area row.1)%Z) grid).
      { rewrite Forall_forall in Hnbelow, Hnex |- *. intros row Hin.
        specialize (Hnbelow row Hin). specialize (Hnex row Hin).
        simpl in *. lia. }
      destruct (get_keys_below grid height width)
        as ([k prices] & _ & Hin & Hkeys); [|done|].
      { destruct Hsome as [row Hin]. exists row. split; [done|].
        apply (Hareas row Hin). }
      destruct (Hrow k prices Hin) as [Hlen Hb].
      rewrite (get_cost_one_key grid height width n k prices); [|done| |done].
      * by apply interpolateAtQuantity_within.
      * apply grid_lookup_NoDup; [apply Hwf|done].
    + (* no row at all *)
      exfalso. destruct Hsome as [row Hin].
      apply not_Exists_Forall in Hnbelow, Hnabove; [|apply _..].
      rewrite Forall_forall in Hnbelow, Hnabove, Hnex.
      specialize (Hnbelow row Hin). specialize (Hnabove row Hin).
      specialize (Hnex row Hin). simpl in *. lia.
Qed.

Lemma get_cost_within_table_witness :
  ∃ v, get_cost Samples.two_sizes 50 50 7 = Ok v
       ∧ Qc_of_Z 10 ≤ num_val v ≤ Qc_of_Z 700.
Proof.
  apply (get_cost_within_table Samples.two_sizes 50 50 7 10 700).
  - split.
    + apply NoDup_cons. split; [|apply NoDup_singleton].
      intros Hin%list_elem_of_singleton. discriminate Hin.
    + repeat constructor.
  - discriminate.
  - assert (Hall : Forall
               (λ row, (0 ≤ key_area row.1 ≤ 1000000 * 1000000)%Z)
               Samples.two_sizes)
      by (repeat constructor; vm_compute; discriminate).
    intros row Hrow. rewrite Forall_forall in Hall. by apply Hall.
  - assert (Hall : Forall
               (λ row, Forall (λ price, (10 ≤ price ≤ 700)%Z) row.2)
               Samples.two_sizes)
      by (repeat constructor; lia).
    intros row price Hrow Hprice. rewrite Forall_forall in Hall.
    specialize (Hall row Hrow). rewrite Forall_forall in Hall.
    by apply Hall.
Defined.

Local Close Scope Qc_scope.

(** X8.  A row that carries an eighth price breaks quantities above 1000:
    the upper rung is read at index [-1], the eighth entry, against the
    seventh at the same rung 1000, and two different prices there make the
    primitive divide by zero, which nothing catches. *)
Theorem get_cost_eight_prices (pre post : cost_grid) (k : row_key)
    (prices : list Z) (height width n a b : Z) :
  Forall (λ row, key_area row.1 ≠ (width * height)%Z) pre →
  key_area k = (width * height)%Z →
  length prices = 8%nat →
  prices !! 6%nat = Some a → prices !! 7%nat = Some b → a ≠ b →
  (1000 < n)%Z →
  get_cost (pre ++ (k, prices) :: post) height width n
    = Raise ZeroDivisionError.
Proof.
  intros Hpre Hk Hlen Ha Hb Hab Hn.
  rewrite (Z.mul_comm width height) in Hpre, Hk.
  unfold get_cost.
  rewrite (get_keys_exact pre post k prices height width Hpre Hk).
  rewrite (quantity_bounds_high n Hn). simpl.
  rewrite grid_lookup_first.
  - unfold row_cost. simpl.
    do 9 (destruct prices as [|? prices]; try discriminate Hlen).
    simpl in Ha, Hb. injection Ha as ->. injection Hb as ->.
    change (py_index numbering_list 6) with (Ok (A:=Z) 1000%Z).
    change (py_index numbering_list (-1)) with (Ok (A:=Z) 1000%Z).
    change (py_index [z; z0; z1; z2; z3; z4; a; b] 6) with (Ok a).
    change (py_index [z; z0; z1; z2; z3; z4; a; b] (-1)) with (Ok b).
    simpl bind. unfold get_interpolation, point_eqb, num_eqb.
    cbn [fst snd num_val].
    rewrite bool_decide_eq_false_2, andb_false_r.
    + unfold truediv.
      change (Z.abs (1000 - 1000)) with 0%Z.
      by rewrite bool_decide_eq_true_2 by apply Z2Qc_inj_0.
    + intros Heq. by apply Z2Qc_inj in Heq.
  - eapply Forall_impl; [exact Hpre|]. intros row Hrow Heq.
    apply Hrow. by rewrite Heq.
Qed.

Lemma get_cost_eight_prices_witness :
  get_cost [(RowKey "small" 50 30, [10; 20; 30; 40; 50; 60; 70; 80])]
    30 50 2000 = Raise ZeroDivisionError.
Proof.
  apply (get_cost_eight_prices [] [] (RowKey "small" 50 30)
           [10; 20; 30; 40; 50; 60; 70; 80] 30 50 2000 70 80);
    first [constructor | reflexivity | lia].
Defined.

End GridEdges.


(** * The material catalogue and the constructor of [ContainerPacking] *)
Section MaterialFile.
Import DeepEngraving Materials.

Lemma lookup_pred_length {A : Type} (l : list A) (d : A) :
  l ≠ [] → l !! Nat.pred (length l) = Some (List.last l d).
Proof.
  induction l as [|a [|b l] IH]; [done | done |].
  intros _. specialize (IH ltac:(done)). exact IH.
Qed.

Lemma py_index_minus_one {A : Type} (l : list A) (d : A) :
  l ≠ [] → py_index l (-1) = Ok (List.last l d).
Proof.
  intros Hl. unfold py_index.
  assert (0 < length l)%nat by (destruct l; [done | simpl; lia]).
  change (-1 <? 0) with true. cbv iota.
  rewrite (proj2 (Z.ltb_ge _ _)) by lia.
  replace (Z.to_nat (Z.of_nat (length l) + -1)) with (Nat.pred (length l))
    by lia.
  by rewrite (lookup_pred_length l d Hl).
Qed.

Lemma readable_material (fields : list field) :
  readable fields →
  ∃ w h rest, leading_floats fields = Ok (w :: h :: rest) ∧
    material_of fields
      = Some (ContainerPacking.Material w h (List.last rest h)).
Proof.
  intros (floats & Hfloats & Hlen).
  destruct floats as [|w [|h rest]]; simpl in Hlen; try lia.
  exists w, h, rest. split; [done |].
  unfold material_of. by rewrite Hfloats.
Qed.

(** What each getter stores for a line, as a function of the line's
    material. *)
Lemma reads_width (w h : Qc) (rest : list Qc) :
  py_index (w :: h :: rest) 0
    = Ok (ContainerPacking.gab_width
            (ContainerPacking.Material w h (List.last rest h))).
Proof. done. Qed.

Lemma reads_height (w h : Qc) (rest : list Qc) :
  py_index (w :: h :: rest) 1
    = Ok (ContainerPacking.gab_height
            (ContainerPacking.Material w h (List.last rest h))).
Proof. done. Qed.

Lemma reads_price (w h : Qc) (rest : list Qc) :
  py_index (w :: h :: rest) (-1)
    = Ok (ContainerPacking.mat_price
            (ContainerPacking.Material w h (List.last rest h))).
Proof.
  rewrite (py_index_minus_one (w :: h :: rest) w) by done.
  simpl. f_equal. destruct rest as [|p rest]; [done |].
  revert p. induction rest as [|q rest IH]; intros p; [done |].
  simpl in *. apply IH.
Qed.

Lemma fill_catalogue (pick : list Qc → res Qc)
    (proj : ContainerPacking.material → Qc) (config : material_config)
    (acc : gmap string ContainerPacking.material) :
  (∀ w h rest,
     pick (w :: h :: rest)
       = Ok (proj (ContainerPacking.Material w h (List.last rest h)))) →
  Forall (λ line, readable line.2) config →
  fill pick config (proj <$> acc)
    = Ok (proj <$>
            fold_left
              (λ acc line,
                 match material_of line.2 with
                 | Some m => <[line.1 := m]> acc
                 | None => acc
                 end)
              config acc).
Proof.
  intros Hreads Hall. revert acc.
  induction Hall as [|[k fields] config Hline Hall IH]; intros acc; [done |].
  destruct (readable_material fields Hline) as (w & h & rest & Hfl & Hmat).
  simpl in *. rewrite Hfl, Hmat. simpl. rewrite Hreads. simpl.
  rewrite <-fmap_insert. apply IH.
Qed.

Lemma getter_catalogue (pick : list Qc → res Qc)
    (proj : ContainerPacking.material → Qc) (config : material_config) :
  (∀ w h rest,
     pick (w :: h :: rest)
       = Ok (proj (ContainerPacking.Material w h (List.last rest h)))) →
  Forall (λ line, readable line.2) config →
  getter pick config = Some (proj <$> catalogue config).
Proof.
  intros Hreads Hall. unfold getter.
  rewrite <-(fmap_empty proj).
  by rewrite (fill_catalogue pick proj config ∅ Hreads Hall).
Qed.

Lemma fill_raise pick (config : material_config) (acc : gmap string Qc) :
  Exists (λ line, ∃ e, leading_floats line.2 = Raise e) config →
  ∃ e, fill pick config acc = Raise e.
Proof.
  intros Hbad. revert acc.
  induction Hbad as [[k fields] config [e He]|[k fields] config Hbad IH];
    intros acc; simpl in *.
  - rewrite He. by exists e.
  - destruct (leading_floats fields) as [floats|e]; [|by exists e].
    simpl. destruct (pick floats) as [x|e]; [|by exists e].
    simpl. apply IH.
Qed.

Lemma catalogue_untouched (config : material_config) (name : string)
    (acc : gmap string ContainerPacking.material) :
  name ∉ config.*1 →
  fold_left
    (λ acc line,
       match material_of line.2 with
       | Some m => <[line.1 := m]> acc
       | None => acc
       end)
    config acc !! name = acc !! name.
Proof.
  revert acc. induction config as [|[k fields] config IH]; intros acc Hname;
    [done |].
  simpl in *. apply not_elem_of_cons in Hname as [Hk Hname].
  rewrite IH by done.
  destruct (material_of fields); [|done].
  by rewrite lookup_insert_ne.
Qed.

Lemma init_catalogue (config : material_config) (width height : Z)
    (mat_name : string) :
  Forall (λ line, readable line.2) config →
  Materials.init config width height mat_name
    = ContainerPacking.init (catalogue config) width height mat_name.
Proof.
  intros Hall. unfold Materials.init, ContainerPacking.init.
  rewrite (getter_catalogue _ _ config reads_width Hall
           : get_gab_width config = _).
  rewrite (getter_catalogue _ _ config reads_height Hall
           : get_gab_height config = _).
  rewrite (getter_catalogue _ _ config reads_price Hall
           : get_mat_price config = _).
  unfold subscript. rewrite !lookup_fmap.
  by destruct (catalogue config !! mat_name) as [m|].
Qed.

(** X9 (materials.py, [ContainerPacking.__init__] over [Materials]): when
    every line of the material file has at least two fields and its first
    three are numerals, the constructor reads for each material 0.9 of the
    first field as usable width, the second as height and the last of the
    leading three as price, a later line of the same name replacing an
    earlier one; a name that is not in the file is a [KeyError]. *)
Theorem init_reads_catalogue (config : material_config) (width height : Z)
    (mat_name : string) :
  Forall (λ line, readable line.2) config →
  Materials.init config width height mat_name
    = ContainerPacking.init (catalogue config) width height mat_name.
Proof. apply init_catalogue. Qed.

Lemma init_reads_catalogue_witness :
  Materials.init
    [("plywood"%string, [FNum (Qc_of_Z 600); FNum (Qc_of_Z 400);
                         FNum (Qc_of_Z 1000); FText "gas"])]
    50 30 "plywood"
  = ContainerPacking.init
      (catalogue
         [("plywood"%string, [FNum (Qc_of_Z 600); FNum (Qc_of_Z 400);
                              FNum (Qc_of_Z 1000); FText "gas"])])
      50 30 "plywood".
Proof.
  apply init_reads_catalogue.
  repeat constructor.
  exists [Qc_of_Z 600; Qc_of_Z 400; Qc_of_Z 1000].
  split; [reflexivity | simpl; lia].
Defined.

(** X10 (materials.py, [Materials.get_gab_width], [get_gab_height],
    [get_mat_price]): one line whose leading three fields hold text that
    is no number makes each of the three getters return [None], so the
    constructor of [ContainerPacking] raises [TypeError] for every
    material, the well-formed ones included. *)
Theorem one_bad_line_spoils_all (config : material_config) :
  Exists (λ line, ∃ e, leading_floats line.2 = Raise e) config →
  get_gab_width config = None ∧
  get_gab_height config = None ∧
  get_mat_price config = None ∧
  ∀ width height mat_name,
    Materials.init config width height mat_name = Raise TypeError.
Proof.
  intros Hbad.
  assert (Hget : ∀ pick, getter pick config = None).
  { intros pick. unfold getter.
    by destruct (fill_raise pick config ∅ Hbad) as [e ->]. }
  split_and!; try apply Hget.
  intros width height mat_name. unfold Materials.init.
  by rewrite (Hget _ : get_gab_width config = None).
Qed.

Lemma one_bad_line_spoils_all_witness :
  let config :=
    [("plywood"%string, [FNum (Qc_of_Z 600); FNum (Qc_of_Z 400);
                         FNum (Qc_of_Z 1000); FText "gas"]);
     ("acrylic"%string, [FNum (Qc_of_Z 600); FNum (Qc_of_Z 400);
                         FText "gas"])] in
  get_gab_width config = None ∧
  get_gab_height config = None ∧
  get_mat_price config = None ∧
  ∀ width height mat_name,
    Materials.init config width height mat_name = Raise TypeError.
Proof.
  apply one_bad_line_spoils_all.
  apply Exists_cons_tl, Exists_cons_hd.
  exists ValueError. reflexivity.
Defined.

(** X11 (materials.py, [Materials.get_mat_price]): a line that gives only
    a width and a height is accepted, and the price the constructor reads
    for it is the sheet height. *)
Theorem missing_price_is_height (pre post : material_config)
    (mat_name : string) (w h : Qc) (width height : Z) :
  Forall (λ line, readable line.2) pre →
  Forall (λ line, readable line.2) post →
  mat_name ∉ post.*1 →
  ∃ self,
    Materials.init (pre ++ (mat_name, [FNum w; FNum h]) :: post)
      width height mat_name = Ok self ∧
    ContainerPacking.price self = h ∧
    ContainerPacking.h_big self = h ∧
    ContainerPacking.w_big self = (w * ContainerPacking.nine_tenths)%Qc.
Proof.
  intros Hpre Hpost Hname.
  assert (Hline : readable [FNum w; FNum h]).
  { exists [w; h]. split; [done | simpl; lia]. }
  rewrite init_catalogue
    by (apply Forall_app; split; [done | by constructor]).
  unfold ContainerPacking.init, catalogue.
  rewrite fold_left_app. simpl.
  rewrite catalogue_untouched by done.
  change (material_of [FNum w; FNum h])
    with (Some (ContainerPacking.Material w h h)).
  rewrite lookup_insert_eq. by eexists.
Qed.

Lemma missing_price_is_height_witness :
  ∃ self,
    Materials.init
      ([] ++ ("film"%string, [FNum (Qc_of_Z 300); FNum (Qc_of_Z 200)]) :: [])
      10 10 "film" = Ok self ∧
    ContainerPacking.price self = Qc_of_Z 200 ∧
    ContainerPacking.h_big self = Qc_of_Z 200 ∧
    ContainerPacking.w_big self
      = (Qc_of_Z 300 * ContainerPacking.nine_tenths)%Qc.
Proof.
  apply (missing_price_is_height [] [] "film" (Qc_of_Z 300) (Qc_of_Z 200)
           10 10); [constructor | constructor | ].
  simpl. apply not_elem_of_nil.
Defined.

End MaterialFile.


(** * Packing: what the count means and what a second call does *)
Section PackingEdges.
Import ContainerPacking.
Local Open Scope Qc_scope.

Lemma Qcfloor_div_mul (a b : Qc) :
  0 < b → Qc_of_Z (Qcfloor (a / b)) * b ≤ a.
Proof.
  intros Hb. destruct (Qcfloor_bounds (a / b)) as [Hlo _].
  assert (Hb0 : b ≠ 0) by (intros ->; by apply (Qclt_not_eq 0 0)).
  replace a with (a / b * b) at 2 by (by field).
  apply Qcmult_le_compat_r; [done | by apply Qclt_le_weak].
Qed.

Lemma Qcfloor_div_nonneg (a b : Qc) :
  0 ≤ a → 0 < b → (0 ≤ Qcfloor (a / b))%Z.
Proof.
  intros Ha Hb. destruct (Qcfloor_bounds (a / b)) as [_ Hhi].
  assert (0 ≤ a / b).
  { unfold Qcdiv. apply Qcmult_nonneg_nonneg; [done |].
    by apply Qclt_le_weak, Qcinv_pos. }
  assert (0 < Qcfloor (a / b) + 1)%Z; [|lia].
  apply Z2Qc_inj_lt. rewrite Z2Qc_inj_0. eapply Qcle_lt_trans; eauto.
Qed.

Lemma Qc_of_Z_pos (z : Z) : (0 < z)%Z → 0 < Qc_of_Z z.
Proof.
  intros Hz. rewrite <-Z2Qc_inj_0. by apply (proj1 (Z2Qc_inj_lt _ _)).
Qed.

(** Two bands side by side on a sheet: one of width [a] and height [b],
    one of width [c] and height [d]. *)
Lemma two_bands (W H a b c d : Qc) :
  0 ≤ a → 0 ≤ c → b ≤ H → d ≤ H → c ≤ W - a → 0 ≤ H →
  a * b + c * d ≤ W * H.
Proof. intros. qc2q. nra. Qed.

(** X12 (materials.py, [ContainerPacking.figure_1]): on a fresh object
    with positive item sizes the count is never negative, and that many
    items never have more area than the usable sheet. *)
Theorem figure_1_fits_sheet (self : packing) :
  (0 < width self)%Z → (0 < height self)%Z →
  0 ≤ w_big self → 0 ≤ h_big self → total_1 self = 0%Z →
  ∃ count,
    (figure_1 self).1 = Ok count ∧
    (0 ≤ count)%Z ∧
    Qc_of_Z (count * (width self * height self)) ≤ w_big self * h_big self.
Proof.
  intros Hw Hh HW HH Hfresh.
  rewrite figure_1_run by lia. cbv zeta. rewrite Hfresh.
  set (w := Qc_of_Z (width self)). set (h := Qc_of_Z (height self)).
  assert (Hwq : 0 < w) by (by apply Qc_of_Z_pos).
  assert (Hhq : 0 < h) by (by apply Qc_of_Z_pos).
  set (R := Qcfloor (w_big self / w)).
  set (C := Qcfloor (h_big self / h)).
  set (Y := Qcfloor (h_big self / w)).
  assert (HR : (0 ≤ R)%Z) by (by apply Qcfloor_div_nonneg).
  assert (HC : (0 ≤ C)%Z) by (by apply Qcfloor_div_nonneg).
  assert (HY : (0 ≤ Y)%Z) by (by apply Qcfloor_div_nonneg).
  assert (HRw : Qc_of_Z R * w ≤ w_big self) by (by apply Qcfloor_div_mul).
  assert (HCh : Qc_of_Z C * h ≤ h_big self) by (by apply Qcfloor_div_mul).
  assert (HYw : Qc_of_Z Y * w ≤ h_big self) by (by apply Qcfloor_div_mul).
  set (left := w_big self - Qc_of_Z R * w).
  assert (Hleft : 0 ≤ left).
  { subst left. revert HRw. generalize (Qc_of_Z R * w) (w_big self).
    intros x y Hxy. qc2q. lra. }
  set (X := Qcfloor (left / h)).
  assert (HX : (0 ≤ X)%Z) by (by apply Qcfloor_div_nonneg).
  assert (HXh : Qc_of_Z X * h ≤ left) by (by apply Qcfloor_div_mul).
  rewrite !Qctrunc_mul_of_Z.
  eexists. split; [reflexivity |].
  assert (Hband : Qc_of_Z (R * C * (width self * height self))
                  + Qc_of_Z (X * Y * (width self * height self))
                  ≤ w_big self * h_big self).
  { rewrite !Z2Qc_inj_mul. fold w h.
    replace (Qc_of_Z R * Qc_of_Z C * (w * h))
      with ((Qc_of_Z R * w) * (Qc_of_Z C * h)) by ring.
    replace (Qc_of_Z X * Qc_of_Z Y * (w * h))
      with ((Qc_of_Z X * h) * (Qc_of_Z Y * w)) by ring.
    apply two_bands; try done.
    apply Qcmult_nonneg_nonneg; [|by apply Qclt_le_weak].
    rewrite <-Z2Qc_inj_0. by apply (proj1 (Z2Qc_inj_le _ _)).
    apply Qcmult_nonneg_nonneg; [|by apply Qclt_le_weak].
    rewrite <-Z2Qc_inj_0. by apply (proj1 (Z2Qc_inj_le _ _)). }
  destruct (Qcleb h left).
  - split; [nia |].
    replace ((0 + R * C + X * Y) * (width self * height self))%Z
      with (R * C * (width self * height self)
            + X * Y * (width self * height self))%Z by ring.
    by rewrite Z2Qc_inj_add.
  - split; [nia |].
    replace ((0 + R * C + 0) * (width self * height self))%Z
      with (R * C * (width self * height self))%Z by ring.
    eapply Qcle_trans; [|exact Hband].
    assert (0 ≤ Qc_of_Z (X * Y * (width self * height self))).
    { rewrite <-Z2Qc_inj_0. apply (proj1 (Z2Qc_inj_le _ _)). nia. }
    revert H. generalize (Qc_of_Z (X * Y * (width self * height self))).
    generalize (Qc_of_Z (R * C * (width self * height self))).
    intros x y Hy. qc2q. lra.
Qed.

Lemma figure_1_fits_sheet_witness :
  ∃ count,
    (figure_1 (Packing 0 0 0 0 (Qc_of_Z 540) (Qc_of_Z 400) 50 30
                 (Qc_of_Z 1000))).1 = Ok count ∧
    (0 ≤ count)%Z ∧
    Qc_of_Z (count * (50 * 30)) ≤ Qc_of_Z 540 * Qc_of_Z 400.
Proof.
  apply (figure_1_fits_sheet
           (Packing 0 0 0 0 (Qc_of_Z 540) (Qc_of_Z 400) 50 30
              (Qc_of_Z 1000)));
    simpl; first [lia | reflexivity | vm_compute; discriminate].
Defined.

End PackingEdges.


Section PackingCalls.
Import ContainerPacking.

Lemma figure_1_keeps (self : packing) :
  width self ≠ 0 → height self ≠ 0 →
  (figure_1 self).1 = Ok (total_1 (figure_1 self).2) ∧
  w_big (figure_1 self).2 = w_big self ∧
  h_big (figure_1 self).2 = h_big self ∧
  width (figure_1 self).2 = width self ∧
  height (figure_1 self).2 = height self.
Proof.
  intros Hw Hh.
  destruct self as [fr fc t1 t2 wb hb wd ht pr]. simpl in Hw, Hh.
  cbv beta iota zeta delta
    [figure_1 try_zero_division mbind get lift modify ret
     set_figure_per_rows set_figure_per_columns set_total_1 set_total_2
     figure_per_rows figure_per_columns total_1 total_2 w_big h_big width
     height price fst snd floordiv].
  rewrite !(bool_decide_eq_false_2 (Qc_of_Z wd = 0%Qc))
    by (by apply Qc_of_Z_nonzero).
  rewrite !(bool_decide_eq_false_2 (Qc_of_Z ht = 0%Qc))
    by (by apply Qc_of_Z_nonzero).
  by destruct (Qcleb _ _).
Qed.

(** X13 (materials.py, [ContainerPacking.figure_1]): the method adds to
    the count the object already holds, so a second call on the same
    object returns twice what the first call returned. *)
Theorem figure_1_second_call_doubles (self : packing) :
  width self ≠ 0 → height self ≠ 0 → total_1 self = 0 →
  ∃ count,
    (figure_1 self).1 = Ok count ∧
    (mbind figure_1 (λ _, figure_1) self).1 = Ok (2 * count).
Proof.
  intros Hw Hh Hfresh.
  destruct (figure_1_keeps self Hw Hh) as (Hret & HW & HH & Hwd & Hht).
  pose proof (figure_1_orientation self Hw Hh) as Hfirst.
  rewrite Hfresh in Hfirst.
  eexists. split; [exact Hfirst |].
  unfold mbind. destruct (figure_1 self) as [r self'] eqn:Hrun.
  simpl in *. rewrite Hret.
  rewrite figure_1_orientation by congruence.
  rewrite HW, HH, Hwd, Hht.
  rewrite Hret in Hfirst. injection Hfirst as ->.
  f_equal. lia.
Qed.

Lemma figure_1_second_call_doubles_witness :
  ∃ count,
    (figure_1 (Packing 0 0 0 0 (Qc_of_Z 540) (Qc_of_Z 400) 50 30
                 (Qc_of_Z 1000))).1 = Ok count ∧
    (mbind figure_1 (λ _, figure_1)
       (Packing 0 0 0 0 (Qc_of_Z 540) (Qc_of_Z 400) 50 30
          (Qc_of_Z 1000))).1 = Ok (2 * count).
Proof.
  apply figure_1_second_call_doubles; simpl; first [lia | reflexivity].
Defined.

(** X14 (materials.py, [ContainerPacking.figure_1], [figure_2]): an item
    with a zero width or height makes both methods return 0, whatever the
    object held before; the division by zero does not leave them. *)
Theorem zero_size_packs_nothing (self : packing) :
  width self = 0 ∨ height self = 0 →
  (figure_1 self).1 = Ok 0 ∧ (figure_2 self).1 = Ok 0.
Proof.
  intros Hzero. split.
  - by apply figure_1_zero_size.
  - by apply figure_2_zero_size.
Qed.

Lemma zero_size_packs_nothing_witness :
  (figure_1 (Packing 0 0 7 7 (Qc_of_Z 540) (Qc_of_Z 400) 50 0
               (Qc_of_Z 1000))).1 = Ok 0 ∧
  (figure_2 (Packing 0 0 7 7 (Qc_of_Z 540) (Qc_of_Z 400) 50 0
               (Qc_of_Z 1000))).1 = Ok 0.
Proof.
  apply zero_size_packs_nothing. right. reflexivity.
Defined.

End PackingCalls.

(** * The sheet-material tab *)
Section SheetMaterials.
Import Interpolation Materials SheetMaterialsTab.

Lemma ceil_bounds (n d : Z) :
  0 < d →
  (ceil (Qc_of_Z n / Qc_of_Z d)%Qc - 1) * d < n
  ∧ n ≤ ceil (Qc_of_Z n / Qc_of_Z d)%Qc * d.
Proof.
  intros Hd. unfold ceil.
  set (x := (Qc_of_Z n / Qc_of_Z d)%Qc).
  assert (Hx : (x * Qc_of_Z d)%Qc = Qc_of_Z n).
  { subst x. field. apply Qc_of_Z_nonzero. lia. }
  assert (Hdq : (0 < Qc_of_Z d)%Qc).
  { rewrite <-Z2Qc_inj_0. by apply (proj1 (Z2Qc_inj_lt _ _)). }
  pose proof (Qle_ceiling x) as Hup.
  pose proof (Qceiling_lt x) as Hlow.
  split.
  - apply Z2Qc_inj_lt. rewrite Z2Qc_inj_mul, <-Hx.
    apply Qcmult_lt_mono_pos_r; [done |].
    unfold Qclt. simpl. exact Hlow.
  - apply Z2Qc_inj_le. rewrite Z2Qc_inj_mul, <-Hx.
    apply Qcmult_le_compat_r; [|by apply Qclt_le_weak].
    unfold Qcle. simpl. exact Hup.
Qed.

(** X15 (main.py, [SheetMaterialsTab.material_calculation]): when at least
    one item fits a sheet, the number of sheets shown is the least that
    holds the batch. *)
Theorem sheets_hold_the_batch (config : material_config) (grid : cost_grid)
    (material_name : string)
    (number_of_products gab_width gab_height discount design_cost : Z)
    (r : totals) :
  material_calculation config grid material_name number_of_products
    gab_width gab_height discount design_cost = Ok r →
  0 < total_3 r →
  (total_4 r - 1) * total_3 r < number_of_products
  ∧ number_of_products ≤ total_4 r * total_3 r.
Proof.
  unfold material_calculation. intros Hrun.
  destruct (ContainerPacking.call ContainerPacking.figure_1 _)
    as [first|]; [|done].
  destruct (ContainerPacking.call ContainerPacking.figure_2 _)
    as [second|]; [|done].
  simpl in Hrun.
  destruct (or_zero 0%Qc _) as [t1|]; [|done]. simpl in Hrun.
  unfold truediv in Hrun.
  destruct (prices _ _ _ _ _ _) as [cost|] eqn:Hcost.
  2:{ by destruct (or_zero 0 _). }
  case_bool_decide as Hzero; simpl in Hrun.
  - injection Hrun as <-. simpl. intros Hpos.
    apply (f_equal Qcfloor) in Hzero.
    rewrite <-Z2Qc_inj_0, !Qcfloor_of_Z in Hzero. lia.
  - injection Hrun as <-. simpl. intros Hpos. by apply ceil_bounds.
Qed.

End SheetMaterials.


Section SheetMaterialsEdges.
Import Interpolation Materials SheetMaterialsTab.

Lemma material_file_readable :
  Forall (λ line, readable line.2) Files.material_file.
Proof.
  repeat constructor.
  - exists [Qc_of_Z 600; Qc_of_Z 400; Qc_of_Z 1000].
    split; [reflexivity | simpl; lia].
  - exists [Qc_of_Z 300; Qc_of_Z 200].
    split; [reflexivity | simpl; lia].
Qed.

Lemma sheets_hold_the_batch_witness :
  ∃ r,
    material_calculation Files.material_file Samples.two_sizes "plywood"
      20 50 30 0 0 = Ok r ∧
    (total_4 r - 1) * total_3 r < 20 ∧ 20 ≤ total_4 r * total_3 r.
Proof.
  assert (Hrun : ∃ r,
    material_calculation Files.material_file Samples.two_sizes "plywood"
      20 50 30 0 0 = Ok r ∧ 0 < total_3 r).
  { vm_compute. eexists. split; reflexivity. }
  destruct Hrun as (r & Hrun & Hpos).
  exists r. split; [exact Hrun |].
  exact (sheets_hold_the_batch _ _ _ _ _ _ _ _ r Hrun Hpos).
Defined.

(** X16 (main.py, [SheetMaterialsTab.material_calculation]): for an item
    with a zero width or height of a material the file holds, nothing
    fits a sheet and the method shows 0 for the count, for both material
    costs and for the sheets; no division by zero leaves it.  It returns
    whenever the cost table gives a price. *)
Theorem zero_size_item_costs_nothing (config : material_config)
    (grid : cost_grid) (material_name : string)
    (number_of_products gab_width gab_height discount design_cost : Z)
    (self : ContainerPacking.packing) (cost : num) :
  gab_width = 0 ∨ gab_height = 0 →
  Materials.init config gab_width gab_height material_name = Ok self →
  get_cost grid gab_height gab_width number_of_products = Ok cost →
  ∃ r,
    material_calculation config grid material_name number_of_products
      gab_width gab_height discount design_cost = Ok r ∧
    total_3 r = 0 ∧ total_1 r = 0%Qc ∧ total_2 r = 0%Qc ∧ total_4 r = 0.
Proof.
  intros Hzero Hinit Hcost.
  assert (Hsizes : ContainerPacking.width self = gab_width
                   ∧ ContainerPacking.height self = gab_height).
  { unfold Materials.init in Hinit.
    destruct (subscript (get_gab_width config) material_name); [|done].
    destruct (subscript (get_gab_height config) material_name); [|done].
    destruct (subscript (get_mat_price config) material_name); [|done].
    simpl in Hinit. by injection Hinit as <-. }
  destruct Hsizes as [Hw Hh].
  unfold material_calculation, ContainerPacking.call.
  rewrite Hinit. cbn [bind].
  rewrite figure_1_zero_size, figure_2_zero_size by (rewrite Hw, Hh; done).
  cbn [bind]. change (Z.max 0 0) with 0.
  unfold truediv.
  rewrite !(bool_decide_eq_true_2 (Qc_of_Z 0 = 0%Qc)) by apply Z2Qc_inj_0.
  cbn [or_zero bind]. unfold prices. rewrite Hcost. cbn [bind].
  eexists. split; [reflexivity |]. cbn [total_1 total_2 total_3 total_4].
  split_and!; done.
Qed.

Lemma zero_size_item_costs_nothing_witness :
  ∃ r,
    material_calculation Files.material_file Samples.two_sizes "plywood"
      20 0 30 0 0 = Ok r ∧
    total_3 r = 0 ∧ total_1 r = 0%Qc ∧ total_2 r = 0%Qc ∧ total_4 r = 0.
Proof.
  assert (Hinit : ∃ self,
    Materials.init Files.material_file 0 30 "plywood" = Ok self).
  { vm_compute. eexists. reflexivity. }
  assert (Hcost : ∃ cost, get_cost Samples.two_sizes 30 0 20 = Ok cost).
  { vm_compute. eexists. reflexivity. }
  destruct Hinit as [self Hinit]. destruct Hcost as [cost Hcost].
  apply (zero_size_item_costs_nothing Files.material_file Samples.two_sizes
           "plywood" 20 0 30 0 0 self cost); [by left | done | done].
Defined.

(** X17 (main.py, [SheetMaterialsTab.material_calculation]): for a material
    name the material file does not hold, the [KeyError] of the
    constructor of [ContainerPacking] leaves the method; its handlers
    catch [ZeroDivisionError] and [ValueError] only. *)
Theorem unknown_material_escapes (config : material_config)
    (grid : cost_grid) (material_name : string)
    (number_of_products gab_width gab_height discount design_cost : Z) :
  Forall (λ line, readable line.2) config →
  material_name ∉ config.*1 →
  material_calculation config grid material_name number_of_products
    gab_width gab_height discount design_cost = Raise KeyError.
Proof.
  intros Hall Hname. unfold material_calculation, ContainerPacking.call.
  rewrite init_catalogue by done.
  unfold ContainerPacking.init, catalogue.
  by rewrite catalogue_untouched, lookup_empty by done.
Qed.

Lemma unknown_material_escapes_witness :
  material_calculation Files.material_file Samples.two_sizes "glass"
    20 50 30 0 0 = Raise KeyError.
Proof.
  apply unknown_material_escapes; [apply material_file_readable |].
  simpl. intros Hin.
  apply elem_of_cons in Hin as [Hin | Hin]; [discriminate Hin |].
  apply elem_of_cons in Hin as [Hin | Hin]; [discriminate Hin |].
  by apply elem_of_nil in Hin.
Defined.

End SheetMaterialsEdges.
